(** * The LibreOffice conversion route of Gotenberg

    A shallow embedding of [convertRoute]
    (pkg/modules/libreoffice/routes.go) and the properties of its
    decision logic: which collaborator calls a request triggers, in which
    order, and which output paths end up registered on the request
    context.

    The handler is sequential Go code which calls four collaborators: the
    LibreOffice converter ([Uno]), the PDF engine ([PdfEngine]), and the
    path allocator and output registrar of the request context.  It is
    embedded in a state-and-error monad over the request context; every
    collaborator call is appended to a log carried by the context, so that
    "is invoked", "exactly once" and "before" are statements on that
    log. *)

From stdpp Require Import base decidable option list strings pretty sorting.

Local Open Scope string_scope.
Local Open Scope list_scope.

(** ** Errors *)

(** Go's [error] values as far as the handler builds and inspects them:
    the three sentinel errors it tests with [errors.Is], fresh errors made
    by [errors.New], the [%w] wrapping of [fmt.Errorf] and the pairing
    with an HTTP sentinel done by [api.WrapError]. *)
Inductive error : Type :=
  | ErrInvalidPdfFormats
  | ErrMalformedPageRanges
  | ErrPdfFormatNotSupported
  | errors_New (text : string)
  | fmt_Errorf (prefix : string) (err : error)
  | api_WrapError (err : error) (status : nat) (message : string).

#[global] Instance error_eq_dec : EqDecision error.
Proof. solve_decision. Defined.

(** [errors.Is err target]: [err] or an error it wraps is [target]. *)
Fixpoint errors_Is (err target : error) : bool :=
  bool_decide (err = target) ||
  match err with
  | fmt_Errorf _ inner => errors_Is inner target
  | api_WrapError inner _ _ => errors_Is inner target
  | _ => false
  end.

Definition StatusBadRequest : nat := 400.

(** The error carries the HTTP sentinel of a bad request. *)
Definition is_bad_request (err : error) : bool :=
  match err with
  | api_WrapError _ status _ => bool_decide (status = StatusBadRequest)
  | _ => false
  end.

(** ** Data of the collaborating packages *)

Module gotenberg.

Record PdfFormats : Type := { PdfA : string; PdfUa : bool }.

#[global] Instance PdfFormats_eq_dec : EqDecision PdfFormats.
Proof. solve_decision. Defined.

(** [fmt.Sprintf("%+v", formats)] *)
Definition Sprintf_plus_v (formats : PdfFormats) : string :=
  "{PdfA:" +:+ PdfA formats +:+ " PdfUa:" +:+
  (if PdfUa formats then "true" else "false") +:+ "}".

End gotenberg.

Module libreofficeapi.

Record Options : Type := {
  Landscape : bool;
  PageRanges : string;
  PdfFormats : gotenberg.PdfFormats;
  HTMLformat : bool;
  ImportFilter : string;
  ImportOptions : string
}.

Definition with_HTMLformat (b : bool) (o : Options) : Options :=
  {| Landscape := Landscape o; PageRanges := PageRanges o;
     PdfFormats := PdfFormats o; HTMLformat := b;
     ImportFilter := ImportFilter o; ImportOptions := ImportOptions o |}.

Definition with_PdfFormats (f : gotenberg.PdfFormats) (o : Options) : Options :=
  {| Landscape := Landscape o; PageRanges := PageRanges o;
     PdfFormats := f; HTMLformat := HTMLformat o;
     ImportFilter := ImportFilter o; ImportOptions := ImportOptions o |}.

End libreofficeapi.

(** ** Collaborator calls *)

(** One entry per collaborator call, with the arguments the handler passed
    and what the collaborator answered ([None] is Go's [nil] error). *)
Inductive event : Type :=
  | GeneratePath_call (extension path : string)
  | Html_call (inputPath outputPath : string)
      (options : libreofficeapi.Options) (err : option error)
  | Pdf_call (inputPath outputPath : string)
      (options : libreofficeapi.Options) (err : option error)
  | Merge_call (inputPaths : list string) (outputPath : string)
      (err : option error)
  | Convert_call (formats : gotenberg.PdfFormats)
      (inputPath outputPath : string) (err : option error)
  | AddOutputPaths_call (paths : list string) (err : option error).

(** The collaborators are interfaces in the source.  Their answers are
    left open: each may depend on its arguments and on everything that
    happened in the request so far. *)
Class Uno : Type := {
  Pdf : list event → string → string → libreofficeapi.Options
        → option error;
  Html : list event → string → string → libreofficeapi.Options
         → option error
}.

Class PdfEngine : Type := {
  Merge : list event → list string → string → option error;
  Convert : list event → gotenberg.PdfFormats → string → string
            → option error
}.

Module api.

(** The form as bound by [ctx.FormData()...Validate()]: the values of
    the handler's local variables and the validation error. *)
Record FormData : Type := {
  Validate : option error;
  inputPaths : list string;
  landscape : bool;
  nativePageRanges : string;
  pdfa : string;
  pdfua : bool;
  nativePdfFormats : bool;
  htmlFormat : bool;
  merge : bool;
  importFilter : string;
  importOptions : string
}.

(** The request context: how many paths it has generated, the output
    paths registered on it, and the log of collaborator calls. *)
Record Context : Type := {
  generated : nat;
  outputPaths : list string;
  log : list event
}.

(** The part of the context the handler calls: the [n]-th generated
    path of the request with a given extension, and whether registering
    output paths fails. *)
Class Backend : Type := {
  GeneratePath : nat → string → string;
  AddOutputPaths : list event → list string → option error
}.

Definition record (ev : event) (ctx : Context) : Context :=
  {| generated := generated ctx; outputPaths := outputPaths ctx;
     log := log ctx ++ [ev] |}.

(** The context a request starts with. *)
Definition newContext : Context :=
  {| generated := 0; outputPaths := []; log := [] |}.

End api.

(** ** The handler monad *)

(** A computation on the request context which either returns a value or
    stops with the error the handler returns. *)
Definition M (A : Type) : Type := api.Context → api.Context * (error + A).

#[global] Instance M_ret : MRet M := λ A (a : A) ctx, (ctx, inr a).

#[global] Instance M_bind : MBind M := λ A B (k : A → M B) (m : M A) ctx,
  match m ctx with
  | (ctx', inr a) => k a ctx'
  | (ctx', inl err) => (ctx', inl err)
  end.

(** [return err] *)
Definition throw {A : Type} (err : error) : M A := λ ctx, (ctx, inl err).

Section Route.

Context {libreOffice : Uno} {engine : PdfEngine} {backend : api.Backend}.

(** [ctx.GeneratePath(extension)] *)
Definition ctx_GeneratePath (extension : string) : M string := λ ctx,
  let path := api.GeneratePath (api.generated ctx) extension in
  ({| api.generated := S (api.generated ctx);
      api.outputPaths := api.outputPaths ctx;
      api.log := api.log ctx ++ [GeneratePath_call extension path] |},
   inr path).

(** Modelled from the spec: [ctx.AddOutputPaths(paths...)], whose code is
    in package [api], is the registrar of section 6, "the sink that makes
    FinalArtifactSet visible to the caller": it registers the paths, in
    order, after those already registered, or it fails, and then this call
    registers nothing ("no partial FinalArtifactSet is ever
    returned"). *)
Definition ctx_AddOutputPaths (paths : list string) : M (option error) :=
  λ ctx,
  let err := api.AddOutputPaths (api.log ctx) paths in
  ({| api.generated := api.generated ctx;
      api.outputPaths :=
        match err with
        | None => api.outputPaths ctx ++ paths
        | Some _ => api.outputPaths ctx
        end;
      api.log := api.log ctx ++ [AddOutputPaths_call paths err] |},
   inr err).

(** [libreOffice.Html(ctx, ctx.Log(), inputPath, outputPath, options)] *)
Definition libreOffice_Html (inputPath outputPath : string)
    (options : libreofficeapi.Options) : M (option error) := λ ctx,
  let err := Html (api.log ctx) inputPath outputPath options in
  (api.record (Html_call inputPath outputPath options err) ctx, inr err).

(** [libreOffice.Pdf(ctx, ctx.Log(), inputPath, outputPath, options)] *)
Definition libreOffice_Pdf (inputPath outputPath : string)
    (options : libreofficeapi.Options) : M (option error) := λ ctx,
  let err := Pdf (api.log ctx) inputPath outputPath options in
  (api.record (Pdf_call inputPath outputPath options err) ctx, inr err).

(** [engine.Merge(ctx, ctx.Log(), inputPaths, outputPath)] *)
Definition engine_Merge (inputPaths : list string) (outputPath : string)
    : M (option error) := λ ctx,
  let err := Merge (api.log ctx) inputPaths outputPath in
  (api.record (Merge_call inputPaths outputPath err) ctx, inr err).

(** [engine.Convert(ctx, ctx.Log(), formats, inputPath, outputPath)] *)
Definition engine_Convert (formats : gotenberg.PdfFormats)
    (inputPath outputPath : string) : M (option error) := λ ctx,
  let err := Convert (api.log ctx) formats inputPath outputPath in
  (api.record (Convert_call formats inputPath outputPath err) ctx, inr err).

(** [gotenberg.PdfFormats{}] *)
Definition zeroValued : gotenberg.PdfFormats :=
  {| gotenberg.PdfA := ""; gotenberg.PdfUa := false |}.

Section Handler.

Variable form : api.FormData.

Let inputPaths := api.inputPaths form.
Let landscape := api.landscape form.
Let nativePageRanges := api.nativePageRanges form.
Let pdfa := api.pdfa form.
Let pdfua := api.pdfua form.
Let nativePdfFormats := api.nativePdfFormats form.
Let htmlFormat := api.htmlFormat form.
Let merge := api.merge form.
Let importFilter := api.importFilter form.
Let importOptions := api.importOptions form.

Definition pdfFormats : gotenberg.PdfFormats :=
  {| gotenberg.PdfA := pdfa; gotenberg.PdfUa := pdfua |}.

(** The options of lines 93-106, the same for every document. *)
Definition conversionOptions : libreofficeapi.Options :=
  let options :=
    {| libreofficeapi.Landscape := landscape;
       libreofficeapi.PageRanges := nativePageRanges;
       libreofficeapi.PdfFormats := zeroValued;
       libreofficeapi.HTMLformat := false;
       libreofficeapi.ImportFilter := importFilter;
       libreofficeapi.ImportOptions := importOptions |} in
  let options :=
    if htmlFormat then libreofficeapi.with_HTMLformat htmlFormat options
    else options in
  if nativePdfFormats then libreofficeapi.with_PdfFormats pdfFormats options
  else options.

(** What the handler returns when [libreOffice.Pdf] fails
    (lines 115-134). *)
Definition pdfConversionError (err : error) : error :=
  if errors_Is err ErrInvalidPdfFormats then
    api_WrapError (fmt_Errorf "convert to PDF" err) StatusBadRequest
      ("A PDF format in '" +:+ gotenberg.Sprintf_plus_v pdfFormats +:+
       "' is not supported")
  else if errors_Is err ErrMalformedPageRanges then
    api_WrapError (fmt_Errorf "convert to PDF" err) StatusBadRequest
      ("Malformed page ranges '" +:+
       libreofficeapi.PageRanges conversionOptions +:+
       "' (nativePageRanges)")
  else fmt_Errorf "convert to PDF" err.

(** What the handler returns when [engine.Convert] fails
    (lines 157-169 and 197-209). *)
Definition normalizationError (err : error) : error :=
  if errors_Is err ErrPdfFormatNotSupported then
    api_WrapError (fmt_Errorf "convert PDF" err) StatusBadRequest
      ("At least one PDF engine does not handle one of the PDF format in '"
       +:+ gotenberg.Sprintf_plus_v pdfFormats +:+
       "', while other have failed to convert for other reasons")
  else fmt_Errorf "convert PDF" err.

(** The loop of lines 86-136, from document [i] on: [rest] are the
    input paths still to convert, [outputPaths] the slice being
    filled. *)
Fixpoint convertDocuments (i : nat) (rest : list string)
    (outputPaths : list string) : M (list string) :=
  match rest with
  | [] => mret outputPaths
  | inputPath :: rest =>
      path ← ctx_GeneratePath (if htmlFormat then ".html" else ".pdf");
      let outputPaths := <[i := path]> outputPaths in
      let options := conversionOptions in
      (if htmlFormat then
         err ← libreOffice_Html inputPath (outputPaths !!! i) options;
         match err with
         | Some err => throw (fmt_Errorf "convert to HTML" err)
         | None => mret tt
         end
       else
         err ← libreOffice_Pdf inputPath (outputPaths !!! i) options;
         match err with
         | Some err => throw (pdfConversionError err)
         | None => mret tt
         end);;
      convertDocuments (S i) rest outputPaths
  end.

(** The loop of lines 192-211, from artifact [i] on. *)
Fixpoint normalizeDocuments (i : nat) (rest : list string)
    (convertOutputPaths : list string) : M (list string) :=
  match rest with
  | [] => mret convertOutputPaths
  | outputPath :: rest =>
      let convertInputPath := outputPath in
      path ← ctx_GeneratePath ".pdf";
      let convertOutputPaths := <[i := path]> convertOutputPaths in
      err ← engine_Convert pdfFormats convertInputPath
              (convertOutputPaths !!! i);
      match err with
      | Some err => throw (normalizationError err)
      | None => normalizeDocuments (S i) rest convertOutputPaths
      end
  end.

(** Lines 141-184: merge, then normalize the merged file if asked. *)
Definition mergeDocuments (outputPaths : list string) : M unit :=
  outputPath ← ctx_GeneratePath ".pdf";
  err ← engine_Merge outputPaths outputPath;
  match err with
  | Some err => throw (fmt_Errorf "merge PDFs" err)
  | None =>
      outputPath ←
        (if negb nativePdfFormats && bool_decide (pdfFormats ≠ zeroValued)
         then
           let convertInputPath := outputPath in
           convertOutputPath ← ctx_GeneratePath ".pdf";
           err ← engine_Convert pdfFormats convertInputPath
                   convertOutputPath;
           match err with
           | Some err => throw (normalizationError err)
           | None => mret convertOutputPath
           end
         else mret outputPath);
      err ← ctx_AddOutputPaths [outputPath];
      match err with
      | Some err => throw (fmt_Errorf "add output path" err)
      | None => mret tt
      end
  end.

(** Lines 221-226. *)
Definition addOutputPaths (outputPaths : list string) : M unit :=
  err ← ctx_AddOutputPaths outputPaths;
  match err with
  | Some err => throw (fmt_Errorf "add output paths" err)
  | None => mret tt
  end.

(** The handler of [convertRoute]. *)
Definition Handler : M unit :=
  match api.Validate form with
  | Some err => throw (fmt_Errorf "validate form data" err)
  | None =>
      if htmlFormat && merge && bool_decide (1 < length inputPaths) then
        throw (api_WrapError
          (errors_New "unable to merge multiple files with htmlFormat")
          StatusBadRequest
          "Unable to merge multiple files using htmlFormat")
      else if htmlFormat && (bool_decide (pdfa ≠ "") || pdfua) then
        throw (api_WrapError
          (errors_New
             "got both 'htmlFormat' and 'nativePdfFormats' form fields")
          StatusBadRequest
          "Both 'htmlFormat' and 'nativePdfFormats' form fields are provided")
      else if htmlFormat && bool_decide (nativePageRanges ≠ "") then
        throw (api_WrapError
          (errors_New
             "got both 'htmlFormat' and 'nativePageRanges' form fields")
          StatusBadRequest
          "Both 'htmlFormat' and 'nativePageRanges' form fields are provided")
      else
        outputPaths ← convertDocuments 0 inputPaths
                        (replicate (length inputPaths) "");
        if negb htmlFormat then
          if bool_decide (1 < length outputPaths) && merge then
            mergeDocuments outputPaths
          else
            outputPaths ←
              (if negb nativePdfFormats
                  && bool_decide (pdfFormats ≠ zeroValued)
               then normalizeDocuments 0 outputPaths
                      (replicate (length outputPaths) "")
               else mret outputPaths);
            addOutputPaths outputPaths
        else addOutputPaths outputPaths
  end.

End Handler.

(** One request, from a fresh context. *)
Definition serve (form : api.FormData) : api.Context * (error + unit) :=
  Handler form api.newContext.

(** The calls the request made, in order. *)
Definition trace (form : api.FormData) : list event :=
  api.log (serve form).1.

(** The error the handler returned, [None] for [nil]. *)
Definition returned (form : api.FormData) : option error :=
  match (serve form).2 with
  | inl err => Some err
  | inr _ => None
  end.

(** The output paths registered on the context (the FinalArtifactSet). *)
Definition registered (form : api.FormData) : list string :=
  api.outputPaths (serve form).1.

End Route.

(** ** Reading the log *)

(** The per-document conversions: input document and output path. *)
Definition conversion_call (ev : event) : option (string * string) :=
  match ev with
  | Html_call inputPath outputPath _ _ | Pdf_call inputPath outputPath _ _ =>
      Some (inputPath, outputPath)
  | _ => None
  end.

(** The per-document conversions: input document and the converter's
    answer. *)
Definition conversion_result (ev : event) : option (string * option error) :=
  match ev with
  | Html_call inputPath _ _ err | Pdf_call inputPath _ _ err =>
      Some (inputPath, err)
  | _ => None
  end.

(** The PDF formats a per-document conversion was given inline. *)
Definition inline_formats (ev : event) : option gotenberg.PdfFormats :=
  match ev with
  | Html_call _ _ options _ | Pdf_call _ _ options _ =>
      Some (libreofficeapi.PdfFormats options)
  | _ => None
  end.

(** The merges: the files merged and the merged file. *)
Definition merge_call (ev : event) : option (list string * string) :=
  match ev with
  | Merge_call inputPaths outputPath _ => Some (inputPaths, outputPath)
  | _ => None
  end.

(** The normalizations (the engine's format conversion): the file
    normalized and the normalized file. *)
Definition normalization_call (ev : event) : option (string * string) :=
  match ev with
  | Convert_call _ inputPath outputPath _ => Some (inputPath, outputPath)
  | _ => None
  end.

(** The calls to the PDF engine, merges and normalizations alike. *)
Definition engine_call (ev : event) : option event :=
  match ev with
  | Merge_call _ _ _ | Convert_call _ _ _ _ => Some ev
  | _ => None
  end.

(** The registrations of output paths. *)
Definition registration_call (ev : event) : option (list string) :=
  match ev with
  | AddOutputPaths_call paths _ => Some paths
  | _ => None
  end.

(** The paths the context generated. *)
Definition generated_path (ev : event) : option string :=
  match ev with
  | GeneratePath_call _ path => Some path
  | _ => None
  end.

(** The answer of a collaborator call; generating a path never fails. *)
Definition call_error (ev : event) : option error :=
  match ev with
  | GeneratePath_call _ _ => None
  | Html_call _ _ _ err | Pdf_call _ _ _ err | Merge_call _ _ err
  | Convert_call _ _ _ err | AddOutputPaths_call _ err => err
  end.

(** A call which failed. *)
Definition failed (ev : event) : bool :=
  match call_error ev with Some _ => true | None => false end.

(** A call to the converter or to the engine's merge which failed: a
    failure ahead of the normalization stage. *)
Definition failed_upstream (ev : event) : bool :=
  match ev with
  | Html_call _ _ _ (Some _) | Pdf_call _ _ _ (Some _)
  | Merge_call _ _ (Some _) => true
  | _ => false
  end.

(** The path a collaborator was told to write to. *)
Definition output_path (ev : event) : option string :=
  match ev with
  | Html_call _ outputPath _ _ | Pdf_call _ outputPath _ _
  | Merge_call _ outputPath _ | Convert_call _ _ outputPath _ =>
      Some outputPath
  | _ => None
  end.

(** The extensions the context was asked paths for. *)
Definition generated_extension (ev : event) : option string :=
  match ev with
  | GeneratePath_call extension _ => Some extension
  | _ => None
  end.

(** The options given to the converter. *)
Definition conversion_options (ev : event)
    : option libreofficeapi.Options :=
  match ev with
  | Html_call _ _ options _ | Pdf_call _ _ options _ => Some options
  | _ => None
  end.

(** The method of the converter which was called: [true] for [Html],
    [false] for [Pdf]. *)
Definition converter_method (ev : event) : option bool :=
  match ev with
  | Html_call _ _ _ _ => Some true
  | Pdf_call _ _ _ _ => Some false
  | _ => None
  end.

(** A call to the converter which failed. *)
Definition failed_conversion (ev : event) : bool :=
  match ev with
  | Html_call _ _ _ (Some _) | Pdf_call _ _ _ (Some _) => true
  | _ => false
  end.

(** The stage of the pipeline a call belongs to: 1 for the per-document
    conversions, 2 for the merge, 3 for the normalizations, 4 for the
    registration of the output paths.  Generating a path belongs to the
    call the path is for. *)
Definition stage (ev : event) : option nat :=
  match ev with
  | GeneratePath_call _ _ => None
  | Html_call _ _ _ _ | Pdf_call _ _ _ _ => Some 1
  | Merge_call _ _ _ => Some 2
  | Convert_call _ _ _ _ => Some 3
  | AddOutputPaths_call _ _ => Some 4
  end.

Section Shape.

Context {libreOffice : Uno} {engine : PdfEngine} {backend : api.Backend}.

Variable form : api.FormData.

(** The extension of the per-document output paths (lines 87-91). *)
Definition extension : string :=
  if api.htmlFormat form then ".html" else ".pdf".

(** The converter call the handler makes for one document. *)
Definition conversion_event (inputPath path : string) (err : option error)
    : event :=
  if api.htmlFormat form
  then Html_call inputPath path (conversionOptions form) err
  else Pdf_call inputPath path (conversionOptions form) err.

(** What the handler returns when the converter fails with [err]. *)
Definition conversionError (err : error) : error :=
  if api.htmlFormat form then fmt_Errorf "convert to HTML" err
  else pdfConversionError form err.

(** The calls of one successful turn of the conversion loop. *)
Definition document_events (doc : string * string) : list event :=
  [GeneratePath_call extension doc.2; conversion_event doc.1 doc.2 None].

(** The calls of one successful turn of the normalization loop. *)
Definition normalize_events (doc : string * string) : list event :=
  [GeneratePath_call ".pdf" doc.2;
   Convert_call (pdfFormats form) doc.1 doc.2 None].

(** *** The runs of the handler *)

(** The checks of lines 56-77: the error the handler returns before it
    converts anything, if any. *)
Definition rejection : option error :=
  if api.htmlFormat form && api.merge form
     && bool_decide (1 < length (api.inputPaths form))
  then Some (api_WrapError
    (errors_New "unable to merge multiple files with htmlFormat")
    StatusBadRequest "Unable to merge multiple files using htmlFormat")
  else if api.htmlFormat form
          && (bool_decide (api.pdfa form ≠ "") || api.pdfua form)
  then Some (api_WrapError
    (errors_New "got both 'htmlFormat' and 'nativePdfFormats' form fields")
    StatusBadRequest
    "Both 'htmlFormat' and 'nativePdfFormats' form fields are provided")
  else if api.htmlFormat form && bool_decide (api.nativePageRanges form ≠ "")
  then Some (api_WrapError
    (errors_New "got both 'htmlFormat' and 'nativePageRanges' form fields")
    StatusBadRequest
    "Both 'htmlFormat' and 'nativePageRanges' form fields are provided")
  else None.

(** The form validates and passes the checks. *)
Definition accepted : Prop :=
  api.Validate form = None ∧ rejection = None.

(** The test of lines 140-141. *)
Definition merge_applies : bool :=
  negb (api.htmlFormat form)
  && bool_decide (1 < length (api.inputPaths form))
  && api.merge form.

(** The tests of lines 140 and 152 (and 189). *)
Definition normalization_applies : bool :=
  negb (api.htmlFormat form)
  && negb (api.nativePdfFormats form)
  && bool_decide (pdfFormats form ≠ zeroValued).

(** The paths registered by a call to [ctx.AddOutputPaths] which answered
    [err]. *)
Definition registered_by (err : option error) (paths : list string)
    : list string :=
  match err with None => paths | Some _ => [] end.

(** The runs of the handler: the calls logged, the error returned and the
    output paths registered.  [docs] pairs each input document with the
    path it was converted to, [ndocs] each artifact with the path it was
    normalized to. *)
Inductive outcome (calls : list event) (ret : option error)
    (reg : list string) : Prop :=
  | invalid_form err :
      api.Validate form = Some err →
      calls = [] →
      ret = Some (fmt_Errorf "validate form data" err) →
      reg = [] →
      outcome calls ret reg
  | rejected err :
      api.Validate form = None →
      rejection = Some err →
      calls = [] → ret = Some err → reg = [] →
      outcome calls ret reg
  | conversion_failed docs inputPath path err :
      accepted →
      docs.*1 ++ [inputPath] = take (S (length docs)) (api.inputPaths form) →
      calls = flat_map document_events docs
              ++ [GeneratePath_call extension path;
                  conversion_event inputPath path (Some err)] →
      ret = Some (conversionError err) →
      reg = [] →
      outcome calls ret reg
  | delivered docs err :
      accepted →
      docs.*1 = api.inputPaths form →
      merge_applies = false →
      normalization_applies = false →
      calls = flat_map document_events docs
              ++ [AddOutputPaths_call docs.*2 err] →
      ret = fmt_Errorf "add output paths" <$> err →
      reg = registered_by err docs.*2 →
      outcome calls ret reg
  | merge_failed docs merged err :
      accepted →
      docs.*1 = api.inputPaths form →
      merge_applies = true →
      calls = flat_map document_events docs
              ++ [GeneratePath_call ".pdf" merged;
                  Merge_call docs.*2 merged (Some err)] →
      ret = Some (fmt_Errorf "merge PDFs" err) →
      reg = [] →
      outcome calls ret reg
  | merged_delivered docs merged err :
      accepted →
      docs.*1 = api.inputPaths form →
      merge_applies = true →
      normalization_applies = false →
      calls = flat_map document_events docs
              ++ [GeneratePath_call ".pdf" merged;
                  Merge_call docs.*2 merged None;
                  AddOutputPaths_call [merged] err] →
      ret = fmt_Errorf "add output path" <$> err →
      reg = registered_by err [merged] →
      outcome calls ret reg
  | merged_normalization_failed docs merged path err :
      accepted →
      docs.*1 = api.inputPaths form →
      merge_applies = true →
      normalization_applies = true →
      calls = flat_map document_events docs
              ++ [GeneratePath_call ".pdf" merged;
                  Merge_call docs.*2 merged None;
                  GeneratePath_call ".pdf" path;
                  Convert_call (pdfFormats form) merged path (Some err)] →
      ret = Some (normalizationError form err) →
      reg = [] →
      outcome calls ret reg
  | merged_normalized docs merged path err :
      accepted →
      docs.*1 = api.inputPaths form →
      merge_applies = true →
      normalization_applies = true →
      calls = flat_map document_events docs
              ++ [GeneratePath_call ".pdf" merged;
                  Merge_call docs.*2 merged None;
                  GeneratePath_call ".pdf" path;
                  Convert_call (pdfFormats form) merged path None;
                  AddOutputPaths_call [path] err] →
      ret = fmt_Errorf "add output path" <$> err →
      reg = registered_by err [path] →
      outcome calls ret reg
  | normalization_failed docs ndocs inputPath path err :
      accepted →
      docs.*1 = api.inputPaths form →
      merge_applies = false →
      normalization_applies = true →
      ndocs.*1 ++ [inputPath] = take (S (length ndocs)) docs.*2 →
      calls = flat_map document_events docs
              ++ flat_map normalize_events ndocs
              ++ [GeneratePath_call ".pdf" path;
                  Convert_call (pdfFormats form) inputPath path (Some err)] →
      ret = Some (normalizationError form err) →
      reg = [] →
      outcome calls ret reg
  | normalized docs ndocs err :
      accepted →
      docs.*1 = api.inputPaths form →
      merge_applies = false →
      normalization_applies = true →
      ndocs.*1 = docs.*2 →
      calls = flat_map document_events docs
              ++ flat_map normalize_events ndocs
              ++ [AddOutputPaths_call ndocs.*2 err] →
      ret = fmt_Errorf "add output paths" <$> err →
      reg = registered_by err ndocs.*2 →
      outcome calls ret reg.


End Shape.

(** ** Sample collaborators and requests *)

Module sample.

(** Collaborators which never fail. *)
Definition uno : Uno :=
  {| Pdf := λ _ _ _ _, None; Html := λ _ _ _ _, None |}.

Definition engine : PdfEngine :=
  {| Merge := λ _ _ _, None; Convert := λ _ _ _ _, None |}.

(** The [n]-th path of the request is numbered [n]. *)
Definition backend : api.Backend :=
  {| api.GeneratePath := λ n extension, "/tmp/" +:+ pretty n +:+ extension;
     api.AddOutputPaths := λ _ _, None |}.

(** A converter which cannot read "broken.docx". *)
Definition pickyUno : Uno :=
  {| Pdf := λ _ inputPath _ _,
       if bool_decide (inputPath = "broken.docx")
       then Some (errors_New "exit status 1") else None;
     Html := λ _ inputPath _ _,
       if bool_decide (inputPath = "broken.docx")
       then Some (errors_New "exit status 1") else None |}.

(** A form which validates, with the default values of the fields the
    examples leave alone. *)
Definition request (inputPaths : list string) (pdfa : string)
    (nativePdfFormats htmlFormat merge : bool) : api.FormData :=
  {| api.Validate := None;
     api.inputPaths := inputPaths;
     api.landscape := false;
     api.nativePageRanges := "";
     api.pdfa := pdfa;
     api.pdfua := false;
     api.nativePdfFormats := nativePdfFormats;
     api.htmlFormat := htmlFormat;
     api.merge := merge;
     api.importFilter := "";
     api.importOptions := "" |}.

(** Three documents, merged, then normalized to PDF/A-1b by the engine. *)
Definition mergedNormalized : api.FormData :=
  request ["a.docx"; "b.docx"; "c.docx"] "PDF/A-1b" false false true.

(** Three documents to merge, the second one unreadable. *)
Definition mergedBroken : api.FormData :=
  request ["a.docx"; "broken.docx"; "c.docx"] "" true false true.

(** Three documents, merged, no format. *)
Definition merged : api.FormData :=
  request ["a.docx"; "b.docx"; "c.docx"] "" true false true.

(** Two documents, neither merged nor normalized. *)
Definition plain : api.FormData :=
  request ["a.docx"; "b.docx"] "" true false false.

(** Two documents, each normalized to PDF/A-2b by the engine. *)
Definition normalizedEach : api.FormData :=
  request ["a.docx"; "b.docx"] "PDF/A-2b" false false false.

(** Two documents to HTML, merge requested. *)
Definition htmlMerged : api.FormData :=
  request ["a.docx"; "b.docx"] "" true true true.

(** One document to HTML, with a PDF/A variant. *)
Definition htmlArchival : api.FormData :=
  request ["a.docx"] "PDF/A-1b" true true false.

(** One document to HTML, merge requested. *)
Definition htmlSingle : api.FormData :=
  request ["a.docx"] "" true true true.

(** Two documents converted to PDF/A-2b by the converter, then merged. *)
Definition nativeMerged : api.FormData :=
  request ["a.docx"; "b.docx"] "PDF/A-2b" true false true.

End sample.

(** ** Sample collaborators which fail *)

Module faulty.

(** A converter which rejects the page ranges it is given. *)
Definition rangesUno : Uno :=
  {| Pdf := λ _ _ _ _,
       Some (fmt_Errorf "convert to PDF" ErrMalformedPageRanges);
     Html := λ _ _ _ _, Some ErrMalformedPageRanges |}.

(** A converter which does not know the PDF formats it is given. *)
Definition formatsUno : Uno :=
  {| Pdf := λ _ _ _ _, Some ErrInvalidPdfFormats;
     Html := λ _ _ _ _, Some ErrInvalidPdfFormats |}.

(** An engine which cannot merge. *)
Definition mergeEngine : PdfEngine :=
  {| Merge := λ _ _ _, Some (errors_New "no PDF engine");
     Convert := λ _ _ _ _, None |}.

(** An engine which normalizes the first file it is given and fails on
    the next one, no backend supporting the format. *)
Definition convertEngine : PdfEngine :=
  {| Merge := λ _ _ _, None;
     Convert := λ history _ _ _,
       if bool_decide (omap normalization_call history = [])
       then None else Some ErrPdfFormatNotSupported |}.

(** A context which refuses the output paths. *)
Definition backend : api.Backend :=
  {| api.GeneratePath := λ n extension, "/tmp/" +:+ pretty n +:+ extension;
     api.AddOutputPaths := λ _ _, Some (errors_New "path out of bounds") |}.

(** Two documents to HTML, with a PDF/A variant, page ranges and merge
    requested: every check applies. *)
Definition htmlEverything : api.FormData :=
  {| api.Validate := None;
     api.inputPaths := ["a.docx"; "b.docx"];
     api.landscape := false;
     api.nativePageRanges := "1-2";
     api.pdfa := "PDF/A-1b";
     api.pdfua := true;
     api.nativePdfFormats := true;
     api.htmlFormat := true;
     api.merge := true;
     api.importFilter := "";
     api.importOptions := "" |}.

(** One document to HTML, pages 1 to 2. *)
Definition htmlRanges : api.FormData :=
  {| api.Validate := None;
     api.inputPaths := ["a.docx"];
     api.landscape := false;
     api.nativePageRanges := "1-2";
     api.pdfa := "";
     api.pdfua := false;
     api.nativePdfFormats := true;
     api.htmlFormat := true;
     api.merge := false;
     api.importFilter := "";
     api.importOptions := "" |}.

(** Two documents to PDF, in landscape, pages 1 to 2, with an import
    filter, normalized to PDF/A-1b by the engine. *)
Definition pdfOptions : api.FormData :=
  {| api.Validate := None;
     api.inputPaths := ["a.docx"; "b.docx"];
     api.landscape := true;
     api.nativePageRanges := "1-2";
     api.pdfa := "PDF/A-1b";
     api.pdfua := false;
     api.nativePdfFormats := false;
     api.htmlFormat := false;
     api.merge := false;
     api.importFilter := "Text";
     api.importOptions := "UTF8" |}.

(** Two documents to HTML. *)
Definition html : api.FormData :=
  sample.request ["a.docx"; "b.docx"] "" true true false.

End faulty.

(** ** Properties *)

Section Run.

Context {libreOffice : Uno} {engine : PdfEngine} {backend : api.Backend}.

Variable form : api.FormData.

Lemma conversion_event_call inputPath path err :
  conversion_call (conversion_event form inputPath path err)
  = Some (inputPath, path).
Proof. unfold conversion_event. by destruct (api.htmlFormat form). Qed.

Lemma conversion_event_result inputPath path err :
  conversion_result (conversion_event form inputPath path err)
  = Some (inputPath, err).
Proof. unfold conversion_event. by destruct (api.htmlFormat form). Qed.

Lemma conversion_event_formats inputPath path err :
  inline_formats (conversion_event form inputPath path err)
  = Some (libreofficeapi.PdfFormats (conversionOptions form)).
Proof. unfold conversion_event. by destruct (api.htmlFormat form). Qed.

Lemma conversion_event_merge inputPath path err :
  merge_call (conversion_event form inputPath path err) = None.
Proof. unfold conversion_event. by destruct (api.htmlFormat form). Qed.

Lemma conversion_event_normalization inputPath path err :
  normalization_call (conversion_event form inputPath path err) = None.
Proof. unfold conversion_event. by destruct (api.htmlFormat form). Qed.

Lemma conversion_event_engine inputPath path err :
  engine_call (conversion_event form inputPath path err) = None.
Proof. unfold conversion_event. by destruct (api.htmlFormat form). Qed.

Lemma conversion_event_registration inputPath path err :
  registration_call (conversion_event form inputPath path err) = None.
Proof. unfold conversion_event. by destruct (api.htmlFormat form). Qed.

Lemma conversion_event_generated inputPath path err :
  generated_path (conversion_event form inputPath path err) = None.
Proof. unfold conversion_event. by destruct (api.htmlFormat form). Qed.

Lemma conversion_event_upstream inputPath path err :
  failed_upstream (conversion_event form inputPath path (Some err)) = true.
Proof. unfold conversion_event. by destruct (api.htmlFormat form). Qed.

Lemma conversion_event_failed inputPath path err :
  failed (conversion_event form inputPath path (Some err)) = true.
Proof. unfold conversion_event. by destruct (api.htmlFormat form). Qed.

(** Closes a turn of a loop: the log of the remaining turns, [Hlog], is
    put after the calls of this turn. *)
Ltac step_done Hhtml Hlog Hin :=
  cbn in *;
  unfold document_events, conversion_event, extension in *;
  cbn in *;
  rewrite ?Hhtml in *;
  rewrite Hlog, ?Hin, <- ?app_assoc;
  done.

(** *** The conversion loop *)

(** The loop either converts every remaining document, logging one
    successful turn per document and filling the slice from index [i] on,
    or stops at the first document whose conversion fails, that call being
    the last one logged.  Nothing is registered either way. *)
Lemma convertDocuments_run rest : ∀ i outputPaths ctx,
  length outputPaths = i + length rest →
  ∃ docs : list (string * string),
    match convertDocuments form i rest outputPaths ctx with
    | (ctx', inr outputPaths') =>
        api.log ctx' = api.log ctx ++ flat_map (document_events form) docs
        ∧ docs.*1 = rest
        ∧ outputPaths' = take i outputPaths ++ docs.*2
        ∧ api.outputPaths ctx' = api.outputPaths ctx
    | (ctx', inl e) =>
        ∃ inputPath path err,
          api.log ctx' = api.log ctx ++ flat_map (document_events form) docs
            ++ [GeneratePath_call (extension form) path;
                (conversion_event form) inputPath path (Some err)]
          ∧ docs.*1 ++ [inputPath] = take (S (length docs)) rest
          ∧ e = (conversionError form) err
          ∧ api.outputPaths ctx' = api.outputPaths ctx
    end.
Proof.
  induction rest as [|inputPath rest IH]; intros i outputPaths ctx Hlen.
  - exists []. cbn. rewrite !app_nil_r, take_ge by (cbn in Hlen; lia). done.
  - cbn in Hlen.
    assert (Hi : i < length outputPaths) by lia.
    set (path := api.GeneratePath (api.generated ctx) (extension form)).
    assert (Hread : <[i:=path]> outputPaths !!! i = path)
      by (by apply list_lookup_total_insert_eq).
    assert (Htake : take (S i) (<[i:=path]> outputPaths)
                    = take i outputPaths ++ [path]).
    { rewrite (take_S_r _ _ path) by (by apply list_lookup_insert_eq).
      by rewrite take_insert_ge. }
    cbn [convertDocuments]. unfold mbind, M_bind at 1. cbn [ctx_GeneratePath].
    fold (extension form). fold path.
    unfold mbind, M_bind, conversion_event, conversionError, extension in *.
    destruct (api.htmlFormat form) eqn:Hhtml; cbn; rewrite Hread.
    + destruct (Html _ inputPath path _) as [err|] eqn:Herr; cbn.
      * exists [], inputPath, path, err. cbn. by rewrite <- app_assoc, take_0.
      * match goal with |- context [convertDocuments form (S i) rest ?o ?c] =>
          destruct (IH (S i) o c) as [docs Hdocs];
          [ rewrite length_insert; lia | ];
          destruct (convertDocuments form (S i) rest o c) as [ctx' [e|outs']]
        end.
        -- destruct Hdocs
             as (inputPath' & path' & err' & Hlog & Hin & He & Hout).
           exists ((inputPath, path) :: docs), inputPath', path', err'.
           step_done Hhtml Hlog Hin.
        -- destruct Hdocs as (Hlog & Hin & Houts & Hout).
           exists ((inputPath, path) :: docs).
           rewrite Houts, Htake. step_done Hhtml Hlog Hin.
    + destruct (Pdf _ inputPath path _) as [err|] eqn:Herr; cbn.
      * exists [], inputPath, path, err. cbn. by rewrite <- app_assoc, take_0.
      * match goal with |- context [convertDocuments form (S i) rest ?o ?c] =>
          destruct (IH (S i) o c) as [docs Hdocs];
          [ rewrite length_insert; lia | ];
          destruct (convertDocuments form (S i) rest o c) as [ctx' [e|outs']]
        end.
        -- destruct Hdocs
             as (inputPath' & path' & err' & Hlog & Hin & He & Hout).
           exists ((inputPath, path) :: docs), inputPath', path', err'.
           step_done Hhtml Hlog Hin.
        -- destruct Hdocs as (Hlog & Hin & Houts & Hout).
           exists ((inputPath, path) :: docs).
           rewrite Houts, Htake. step_done Hhtml Hlog Hin.
Qed.

(** *** The normalization loop *)

(** The loop either normalizes every remaining artifact, one successful
    turn each, or stops at the first failure of the engine. *)
Lemma normalizeDocuments_run rest : ∀ i convertOutputPaths ctx,
  length convertOutputPaths = i + length rest →
  ∃ docs : list (string * string),
    match normalizeDocuments form i rest convertOutputPaths ctx with
    | (ctx', inr outputPaths') =>
        api.log ctx' = api.log ctx ++ flat_map (normalize_events form) docs
        ∧ docs.*1 = rest
        ∧ outputPaths' = take i convertOutputPaths ++ docs.*2
        ∧ api.outputPaths ctx' = api.outputPaths ctx
    | (ctx', inl e) =>
        ∃ inputPath path err,
          api.log ctx' = api.log ctx ++ flat_map (normalize_events form) docs
            ++ [GeneratePath_call ".pdf" path;
                Convert_call (pdfFormats form) inputPath path (Some err)]
          ∧ docs.*1 ++ [inputPath] = take (S (length docs)) rest
          ∧ e = normalizationError form err
          ∧ api.outputPaths ctx' = api.outputPaths ctx
    end.
Proof.
  induction rest as [|inputPath rest IH]; intros i outs ctx Hlen.
  - exists []. cbn. rewrite !app_nil_r, take_ge by (cbn in Hlen; lia). done.
  - cbn in Hlen.
    assert (Hi : i < length outs) by lia.
    set (path := api.GeneratePath (api.generated ctx) ".pdf").
    assert (Hread : <[i:=path]> outs !!! i = path)
      by (by apply list_lookup_total_insert_eq).
    assert (Htake : take (S i) (<[i:=path]> outs) = take i outs ++ [path]).
    { rewrite (take_S_r _ _ path) by (by apply list_lookup_insert_eq).
      by rewrite take_insert_ge. }
    cbn [normalizeDocuments]. unfold mbind, M_bind at 1. cbn [ctx_GeneratePath].
    fold path. unfold mbind, M_bind. cbn. rewrite Hread.
    destruct (Convert _ _ inputPath path) as [err|] eqn:Herr; cbn.
    + exists [], inputPath, path, err. cbn. by rewrite <- app_assoc, take_0.
    + match goal with |- context [normalizeDocuments form (S i) rest ?o ?c] =>
        destruct (IH (S i) o c) as [docs Hdocs];
        [ rewrite length_insert; lia | ];
        destruct (normalizeDocuments form (S i) rest o c) as [ctx' [e|outs']]
      end.
      * destruct Hdocs as (inputPath' & path' & err' & Hlog & Hin & He & Hout).
        exists ((inputPath, path) :: docs), inputPath', path', err'.
        cbn in *. rewrite Hlog, Hin, <- ?app_assoc. done.
      * destruct Hdocs as (Hlog & Hin & Houts & Hout).
        exists ((inputPath, path) :: docs).
        cbn in *. rewrite Houts, Htake, Hlog, Hin, <- ?app_assoc. done.
Qed.

(** *** What the loops leave in the log *)

Arguments conversion_event : simpl never.

Ltac by_turns docs :=
  induction docs as [|[? ?] docs IH]; cbn;
  rewrite ?conversion_event_call, ?conversion_event_result,
    ?conversion_event_formats, ?conversion_event_merge,
    ?conversion_event_normalization, ?conversion_event_engine,
    ?conversion_event_registration, ?conversion_event_generated;
  cbn; [done | by rewrite ?IH].

Lemma conversions_documents docs :
  omap conversion_call (flat_map (document_events form) docs) = docs.
Proof. by_turns docs. Qed.

Lemma results_documents docs :
  omap conversion_result (flat_map (document_events form) docs)
  = (λ doc, (doc.1, None)) <$> docs.
Proof. by_turns docs. Qed.

Lemma formats_documents docs :
  omap inline_formats (flat_map (document_events form) docs)
  = (λ _, libreofficeapi.PdfFormats (conversionOptions form)) <$> docs.
Proof. by_turns docs. Qed.

Lemma merges_documents docs :
  omap merge_call (flat_map (document_events form) docs) = [].
Proof. by_turns docs. Qed.

Lemma normalizations_documents docs :
  omap normalization_call (flat_map (document_events form) docs) = [].
Proof. by_turns docs. Qed.

Lemma engine_documents docs :
  omap engine_call (flat_map (document_events form) docs) = [].
Proof. by_turns docs. Qed.

Lemma registrations_documents docs :
  omap registration_call (flat_map (document_events form) docs) = [].
Proof. by_turns docs. Qed.

Lemma generated_documents docs :
  omap generated_path (flat_map (document_events form) docs) = docs.*2.
Proof. by_turns docs. Qed.

Lemma upstream_documents docs :
  existsb failed_upstream (flat_map (document_events form) docs) = false.
Proof.
  induction docs as [|[? ?] docs IH]; cbn; [done|].
  unfold conversion_event. by destruct (api.htmlFormat form).
Qed.

Lemma conversions_normalized docs :
  omap conversion_call (flat_map (normalize_events form) docs) = [].
Proof. by_turns docs. Qed.

Lemma results_normalized docs :
  omap conversion_result (flat_map (normalize_events form) docs) = [].
Proof. by_turns docs. Qed.

Lemma formats_normalized docs :
  omap inline_formats (flat_map (normalize_events form) docs) = [].
Proof. by_turns docs. Qed.

Lemma merges_normalized docs :
  omap merge_call (flat_map (normalize_events form) docs) = [].
Proof. by_turns docs. Qed.

Lemma normalizations_normalized docs :
  omap normalization_call (flat_map (normalize_events form) docs) = docs.
Proof. by_turns docs. Qed.

Lemma registrations_normalized docs :
  omap registration_call (flat_map (normalize_events form) docs) = [].
Proof. by_turns docs. Qed.

Lemma generated_normalized docs :
  omap generated_path (flat_map (normalize_events form) docs) = docs.*2.
Proof. by_turns docs. Qed.

Lemma upstream_normalized docs :
  existsb failed_upstream (flat_map (normalize_events form) docs) = false.
Proof. induction docs as [|[? ?] docs IH]; cbn; done. Qed.

Lemma failed_documents docs :
  existsb failed (flat_map (document_events form) docs) = false.
Proof.
  induction docs as [|[? ?] docs IH]; cbn; [done|].
  unfold conversion_event. by destruct (api.htmlFormat form).
Qed.

Lemma failed_normalized docs :
  existsb failed (flat_map (normalize_events form) docs) = false.
Proof. induction docs as [|[? ?] docs IH]; cbn; done. Qed.

Lemma engine_normalized docs :
  omap engine_call (flat_map (normalize_events form) docs)
  = (λ doc, Convert_call (pdfFormats form) doc.1 doc.2 None) <$> docs.
Proof. by_turns docs. Qed.

(** Every run of the handler is one of the runs of [outcome]. *)
Lemma serve_outcome :
  outcome form (trace form) (returned form) (registered form).
Proof.
  unfold trace, returned, registered.
  generalize (eq_refl (serve form)).
  generalize (serve form) at 2 3 4 5. intros run Hrun.
  unfold serve, Handler in Hrun.
  destruct (api.Validate form) as [verr|] eqn:Hvalid.
  { subst run. by eapply invalid_form. }
  destruct (rejection form) as [rerr|] eqn:Hrej.
  { pose proof Hrej as Hrej'. unfold rejection in Hrej.
    repeat match type of Hrej with
    | (if ?c then _ else _) = _ => destruct c
    end; try discriminate; injection Hrej as <-; subst run;
    by eapply rejected. }
  assert (Hacc : accepted form) by done.
  unfold rejection in Hrej.
  repeat match type of Hrej with
    | (if ?c then _ else _) = _ => destruct c eqn:?
    end; try discriminate.
  clear Hrej.
  unfold mbind at 1, M_bind at 1 in Hrun.
  destruct (convertDocuments_run (api.inputPaths form) 0
    (replicate (length (api.inputPaths form)) "") api.newContext)
    as [docs Hdocs].
  { by rewrite length_replicate. }
  destruct (convertDocuments form 0 _ _ api.newContext)
    as [ctx1 [e|outputPaths]].
  { destruct Hdocs as (inputPath & path & err & Hlog & Hin & -> & Hout).
    subst run. cbn in *. by eapply conversion_failed. }
  destruct Hdocs as (Hlog & Hin & -> & Hout).
  cbn in Hlog, Hout. rewrite take_0, app_nil_l in Hrun.
  assert (Hlen : length docs.*2 = length (api.inputPaths form)).
  { by rewrite <- Hin, !length_fmap. }
  rewrite Hlen in Hrun.
  assert (Hmerge : (merge_applies form) = negb (api.htmlFormat form)
            && (bool_decide (1 < length (api.inputPaths form))
                && api.merge form)).
  { unfold merge_applies. by rewrite andb_assoc. }
  assert (Hnorm : (normalization_applies form) = negb (api.htmlFormat form)
            && (negb (api.nativePdfFormats form)
                && bool_decide (pdfFormats form ≠ zeroValued))).
  { unfold normalization_applies. by rewrite andb_assoc. }
  destruct (api.htmlFormat form) eqn:Hhtml;
    cbn [negb andb] in Hrun, Hmerge, Hnorm.
  - unfold addOutputPaths, mbind, M_bind in Hrun. cbn in Hrun. subst run.
    cbn. rewrite Hlog, Hout.
    destruct (api.AddOutputPaths _ _) as [err|] eqn:Herr;
      by eapply (delivered form _ _ _ docs).
  - destruct (bool_decide (1 < length (api.inputPaths form)) && api.merge form).
    + unfold mergeDocuments, mbind, M_bind in Hrun. cbn in Hrun.
      rewrite Hlog, Hout in Hrun.
      destruct (Merge _ _ _) as [merr|] eqn:Hmerr.
      { subst run. cbn. rewrite <- app_assoc. by eapply merge_failed. }
      destruct (negb (api.nativePdfFormats form)
                && bool_decide (pdfFormats form ≠ zeroValued)); cbn in Hrun.
      * destruct (Convert _ _ _ _) as [cerr|] eqn:Hcerr.
        { subst run. cbn. rewrite <- !app_assoc.
          by eapply merged_normalization_failed. }
        subst run. cbn. rewrite <- !app_assoc.
        destruct (api.AddOutputPaths _ _) as [err|] eqn:Herr;
          by eapply merged_normalized.
      * subst run. cbn. rewrite <- !app_assoc.
        destruct (api.AddOutputPaths _ _) as [err|] eqn:Herr;
          by eapply merged_delivered.
    + unfold mbind at 1, M_bind at 1 in Hrun.
      destruct (negb (api.nativePdfFormats form)
                && bool_decide (pdfFormats form ≠ zeroValued)).
      * destruct (normalizeDocuments_run docs.*2 0
          (replicate (length (api.inputPaths form)) "") ctx1) as [ndocs Hndocs].
        { by rewrite length_replicate. }
        destruct (normalizeDocuments form 0 _ _ ctx1) as [ctx2 [e|outputPaths]].
        { destruct Hndocs
            as (inputPath & path & err & Hlog2 & Hin2 & -> & Hout2).
          subst run. cbn. rewrite Hlog2, Hout2, Hlog, Hout.
          by eapply normalization_failed. }
        destruct Hndocs as (Hlog2 & Hin2 & -> & Hout2).
        rewrite take_0, app_nil_l in Hrun.
        unfold addOutputPaths, mbind, M_bind in Hrun. cbn in Hrun. subst run.
        cbn. rewrite Hlog2, Hout2, Hlog, Hout, <- app_assoc.
        destruct (api.AddOutputPaths _ _) as [err|] eqn:Herr;
          by eapply normalized.
      * unfold addOutputPaths, mbind, M_bind in Hrun. cbn in Hrun. subst run.
        cbn. rewrite Hlog, Hout.
        destruct (api.AddOutputPaths _ _) as [err|] eqn:Herr;
          by eapply (delivered form _ _ _ docs).
Qed.


(** *** The guards of the stages *)

Lemma merge_applies_true :
  merge_applies form = true
  ↔ api.htmlFormat form = false
    ∧ 1 < length (api.inputPaths form)
    ∧ api.merge form = true.
Proof.
  unfold merge_applies.
  rewrite !andb_true_iff, negb_true_iff, bool_decide_eq_true. tauto.
Qed.

Lemma normalization_applies_true :
  normalization_applies form = true
  ↔ api.htmlFormat form = false
    ∧ api.nativePdfFormats form = false
    ∧ pdfFormats form ≠ zeroValued.
Proof.
  unfold normalization_applies.
  rewrite !andb_true_iff, !negb_true_iff, bool_decide_eq_true. tauto.
Qed.

Lemma rejection_bad_request err :
  rejection form = Some err → is_bad_request err = true.
Proof.
  unfold rejection. intros H.
  repeat match type of H with
    | (if ?c then _ else _) = _ => destruct c
    end; try discriminate; by injection H as <-.
Qed.

Lemma rejection_pdf : api.htmlFormat form = false → rejection form = None.
Proof. unfold rejection. by intros ->. Qed.

Lemma rejection_html_merge :
  api.htmlFormat form = true →
  api.merge form = true →
  1 < length (api.inputPaths form) →
  is_Some (rejection form).
Proof.
  unfold rejection. intros -> -> Hlen.
  by rewrite bool_decide_true by done.
Qed.

Lemma rejection_html_formats :
  api.htmlFormat form = true →
  api.pdfa form ≠ "" ∨ api.pdfua form = true →
  is_Some (rejection form).
Proof.
  unfold rejection. intros -> Hformats.
  destruct (true && api.merge form && _); [done|].
  destruct Hformats as [Hpdfa| ->].
  - by rewrite bool_decide_true by done.
  - by rewrite orb_true_r.
Qed.

(** Lines 104-106: with [nativePdfFormats] the converter is given the
    requested formats. *)
Lemma conversionOptions_inline :
  api.nativePdfFormats form = true →
  libreofficeapi.PdfFormats (conversionOptions form) = pdfFormats form.
Proof.
  unfold conversionOptions. intros ->. by destruct (api.htmlFormat form).
Qed.

(** *** The answers of the converter in a log *)

Lemma results_documents_ok (docs : list (string * string)) i inputPath
    (err : error) :
  ((λ doc, (doc.1, None)) <$> docs) !! i = Some (inputPath, Some err) →
  False.
Proof. rewrite list_lookup_fmap. destruct (docs !! i); cbn; congruence. Qed.

Lemma results_documents_inputs (docs : list (string * string)) :
  ((λ doc, (doc.1, @None error)) <$> docs).*1 = docs.*1.
Proof. by rewrite <- list_fmap_compose. Qed.

(** *** More of what the loops leave in the log *)

Lemma conversion_event_output inputPath path err :
  output_path (conversion_event form inputPath path err) = Some path.
Proof. unfold conversion_event. by destruct (api.htmlFormat form). Qed.

Lemma conversion_event_extension inputPath path err :
  generated_extension (conversion_event form inputPath path err) = None.
Proof. unfold conversion_event. by destruct (api.htmlFormat form). Qed.

Lemma conversion_event_options inputPath path err :
  conversion_options (conversion_event form inputPath path err)
  = Some (conversionOptions form).
Proof. unfold conversion_event. by destruct (api.htmlFormat form). Qed.

Lemma conversion_event_method inputPath path err :
  converter_method (conversion_event form inputPath path err)
  = Some (api.htmlFormat form).
Proof. unfold conversion_event. by destruct (api.htmlFormat form). Qed.

Lemma conversion_event_stage inputPath path err :
  stage (conversion_event form inputPath path err) = Some 1.
Proof. unfold conversion_event. by destruct (api.htmlFormat form). Qed.

Lemma conversion_event_failed_conversion inputPath path err :
  failed_conversion (conversion_event form inputPath path (Some err)) = true.
Proof. unfold conversion_event. by destruct (api.htmlFormat form). Qed.

Lemma conversion_event_call_error inputPath path err :
  call_error (conversion_event form inputPath path err) = err.
Proof. unfold conversion_event. by destruct (api.htmlFormat form). Qed.

Ltac by_more_turns docs :=
  induction docs as [|[? ?] docs IH]; cbn;
  rewrite ?conversion_event_output, ?conversion_event_extension,
    ?conversion_event_options, ?conversion_event_method,
    ?conversion_event_stage;
  cbn; [done | by rewrite ?IH].

Lemma outputs_documents docs :
  omap output_path (flat_map (document_events form) docs) = docs.*2.
Proof. by_more_turns docs. Qed.

Lemma extensions_documents docs :
  omap generated_extension (flat_map (document_events form) docs)
  = (λ _, extension form) <$> docs.
Proof. by_more_turns docs. Qed.

Lemma options_documents docs :
  omap conversion_options (flat_map (document_events form) docs)
  = (λ _, conversionOptions form) <$> docs.
Proof. by_more_turns docs. Qed.

Lemma methods_documents docs :
  omap converter_method (flat_map (document_events form) docs)
  = (λ _, api.htmlFormat form) <$> docs.
Proof. by_more_turns docs. Qed.

Lemma stages_documents docs :
  omap stage (flat_map (document_events form) docs) = (λ _, 1) <$> docs.
Proof. by_more_turns docs. Qed.

Lemma failed_conversion_documents docs :
  existsb failed_conversion (flat_map (document_events form) docs) = false.
Proof.
  induction docs as [|[? ?] docs IH]; cbn; [done|].
  unfold conversion_event. by destruct (api.htmlFormat form).
Qed.

Lemma outputs_normalized docs :
  omap output_path (flat_map (normalize_events form) docs) = docs.*2.
Proof. by_more_turns docs. Qed.

Lemma extensions_normalized docs :
  omap generated_extension (flat_map (normalize_events form) docs)
  = (λ _, ".pdf") <$> docs.
Proof. by_more_turns docs. Qed.

Lemma options_normalized docs :
  omap conversion_options (flat_map (normalize_events form) docs) = [].
Proof. by_more_turns docs. Qed.

Lemma methods_normalized docs :
  omap converter_method (flat_map (normalize_events form) docs) = [].
Proof. by_more_turns docs. Qed.

Lemma stages_normalized docs :
  omap stage (flat_map (normalize_events form) docs) = (λ _, 3) <$> docs.
Proof. by_more_turns docs. Qed.

Lemma failed_conversion_normalized docs :
  existsb failed_conversion (flat_map (normalize_events form) docs) = false.
Proof. induction docs as [|[? ?] docs IH]; cbn; done. Qed.

(** No call of a successful turn of a loop failed. *)
Lemma not_failed_documents docs ev :
  ev ∈ flat_map (document_events form) docs → failed ev = false.
Proof.
  intros Hin%list_elem_of_In.
  destruct (failed ev) eqn:Hfailed; [|done].
  rewrite <- (failed_documents docs). symmetry. apply existsb_exists. eauto.
Qed.

Lemma not_failed_normalized docs ev :
  ev ∈ flat_map (normalize_events form) docs → failed ev = false.
Proof.
  intros Hin%list_elem_of_In.
  destruct (failed ev) eqn:Hfailed; [|done].
  rewrite <- (failed_normalized docs). symmetry. apply existsb_exists. eauto.
Qed.

End Run.

(** ** The specification of the route *)

(** Splits on the run of the handler for [form]: one goal per
    constructor of [outcome], the log, the returned error and the
    registered paths replaced by what that run makes them. *)
Ltac run_cases form :=
  let Hrun := fresh "Hrun" in
  let calls := fresh "calls" in
  let ret := fresh "ret" in
  let reg := fresh "reg" in
  let Ec := fresh "Ec" in
  let Er := fresh "Er" in
  let Eg := fresh "Eg" in
  pose proof (serve_outcome form) as Hrun;
  remember (trace form) as calls eqn:Ec;
  remember (returned form) as ret eqn:Er;
  remember (registered form) as reg eqn:Eg;
  clear Ec Er Eg;
  destruct Hrun as
    [ cause Rvalid Rcalls Rret Rreg
    | cause Rvalid Rrej Rcalls Rret Rreg
    | docs input path cause Racc Rin Rcalls Rret Rreg
    | docs answer Racc Rin Rmerge Rnorm Rcalls Rret Rreg
    | docs merged cause Racc Rin Rmerge Rcalls Rret Rreg
    | docs merged answer Racc Rin Rmerge Rnorm Rcalls Rret Rreg
    | docs merged path cause Racc Rin Rmerge Rnorm Rcalls Rret Rreg
    | docs merged path answer Racc Rin Rmerge Rnorm Rcalls Rret Rreg
    | docs ndocs input path cause Racc Rin Rmerge Rnorm Rnin Rcalls Rret Rreg
    | docs ndocs answer Racc Rin Rmerge Rnorm Rnin Rcalls Rret Rreg ];
  subst calls ret reg.

(** Reads a projection off the log of a run. *)
Ltac read_log :=
  repeat first
    [ rewrite omap_app | rewrite existsb_app
    | rewrite conversions_documents | rewrite results_documents
    | rewrite formats_documents | rewrite merges_documents
    | rewrite normalizations_documents | rewrite engine_documents
    | rewrite registrations_documents | rewrite generated_documents
    | rewrite upstream_documents
    | rewrite conversions_normalized | rewrite results_normalized
    | rewrite formats_normalized | rewrite merges_normalized
    | rewrite normalizations_normalized | rewrite registrations_normalized
    | rewrite generated_normalized | rewrite upstream_normalized
    | rewrite engine_normalized | rewrite failed_documents
    | rewrite failed_normalized | rewrite conversion_event_upstream
    | rewrite conversion_event_failed
    | rewrite conversion_event_call | rewrite conversion_event_result
    | rewrite conversion_event_formats | rewrite conversion_event_merge
    | rewrite conversion_event_normalization | rewrite conversion_event_engine
    | rewrite conversion_event_registration
    | rewrite conversion_event_generated
    | progress cbn [omap list_omap existsb app fmap list_fmap orb
                    conversion_call conversion_result inline_formats
                    merge_call normalization_call engine_call
                    registration_call generated_path failed_upstream
                    failed call_error registered_by fst snd] ].

Section Specification.

Context {libreOffice : Uno} {engine : PdfEngine} {backend : api.Backend}.

(** The handler returns no error exactly when the form validates and
    passes the checks and no collaborator call fails. *)
Lemma returned_nil (form : api.FormData) :
  returned form = None
  ↔ api.Validate form = None
    ∧ rejection form = None
    ∧ existsb failed (trace form) = false.
Proof.
  run_cases form; read_log; rewrite ?app_nil_r, ?orb_true_r, ?orb_false_r;
    try destruct Racc as [Rvalid Rrej];
    try destruct answer; cbn; split; try done;
    try (by intros (? & ? & ?)); try congruence;
    intros (? & ? & ?); congruence.
Qed.

(** C3: a successful PDF-mode request with more than one input document
    and merge requested registers exactly one output path. *)
Theorem merged_request_registers_one_path (form : api.FormData) :
  returned form = None →
  api.htmlFormat form = false →
  1 < length (api.inputPaths form) →
  api.merge form = true →
  length (registered form) = 1.
Proof.
  intros Hret Hhtml Hlen Hmerge.
  assert (Happ : merge_applies form = true) by (by apply merge_applies_true).
  revert Hret. run_cases form; try congruence.
  all: destruct answer; cbn; done.
Qed.

(** C1: in a successful PDF-mode request where merge and deferred
    normalization both apply, the engine is called exactly twice: first
    the merge of the per-document artifacts, then one normalization, whose
    input is the merged file and whose output is the only path
    registered.  As the generated paths are pairwise distinct, the file
    normalized is none of the per-document artifacts. *)
Theorem merged_artifact_normalized_once (form : api.FormData) :
  returned form = None →
  api.htmlFormat form = false →
  1 < length (api.inputPaths form) →
  api.merge form = true →
  api.nativePdfFormats form = false →
  pdfFormats form ≠ zeroValued →
  ∃ merged normalized,
    omap engine_call (trace form)
    = [Merge_call (omap conversion_call (trace form)).*2 merged None;
       Convert_call (pdfFormats form) merged normalized None]
    ∧ registered form = [normalized]
    ∧ (NoDup (omap generated_path (trace form)) →
       merged ∉ (omap conversion_call (trace form)).*2).
Proof.
  intros Hret Hhtml Hlen Hmerge Hnative Hformats.
  assert (Happ : merge_applies form = true) by (by apply merge_applies_true).
  assert (Hnorm : normalization_applies form = true)
    by (by apply normalization_applies_true).
  revert Hret. run_cases form; try congruence.
  destruct answer; [done|].
  exists merged, path. read_log. rewrite !app_nil_r. split_and!; [done..|].
  intros Hdistinct Hin.
  apply NoDup_app in Hdistinct as (_ & Hfresh & _).
  apply (Hfresh _ Hin). apply list_elem_of_here.
Qed.

(** C2: if the converter fails on document [i], the handler returns an
    error, the converter was called for the documents up to [i] and for no
    later one, the engine was asked neither to merge nor to normalize, and
    no output path was registered. *)
Theorem conversion_failure_aborts (form : api.FormData) (i : nat)
    (inputPath : string) (err : error) :
  omap conversion_result (trace form) !! i = Some (inputPath, Some err) →
  is_Some (returned form)
  ∧ api.inputPaths form !! i = Some inputPath
  ∧ (omap conversion_result (trace form)).*1
    = take (S i) (api.inputPaths form)
  ∧ omap merge_call (trace form) = []
  ∧ omap normalization_call (trace form) = []
  ∧ omap registration_call (trace form) = []
  ∧ registered form = [].
Proof.
  run_cases form; read_log; rewrite ?app_nil_r;
    try (by intros ?%results_documents_ok); try done.
  intros [?%results_documents_ok|[Hi Hlast]]%lookup_app_Some; [done|].
  rewrite length_fmap in Hi, Hlast.
  destruct (i - length docs) as [|n] eqn:Hn; [|done].
  injection Hlast as <- <-.
  assert (i = length docs) as -> by lia.
  split_and!; try done.
  - apply (f_equal (.!! length docs)) in Rin.
    rewrite lookup_take_lt in Rin by lia. rewrite <- Rin.
    rewrite lookup_app_r by (by rewrite length_fmap).
    by rewrite length_fmap, Nat.sub_diag.
  - by rewrite fmap_app, results_documents_inputs.
Qed.

(** C4: a successful PDF-mode request to which merge does not apply
    registers one path per input document, in the order of the inputs:
    the [k]-th path registered is the artifact of the [k]-th conversion,
    or the normalization of that artifact where normalization applies,
    and the [k]-th conversion is that of the [k]-th input. *)
Theorem unmerged_request_registers_in_order (form : api.FormData) :
  returned form = None →
  api.htmlFormat form = false →
  api.merge form = false ∨ (length (api.inputPaths form) ≤ 1)%nat →
  length (registered form) = length (api.inputPaths form)
  ∧ (omap conversion_call (trace form)).*1 = api.inputPaths form
  ∧ if normalization_applies form
    then (omap normalization_call (trace form)).*1
         = (omap conversion_call (trace form)).*2
         ∧ registered form = (omap normalization_call (trace form)).*2
    else registered form = (omap conversion_call (trace form)).*2.
Proof.
  intros Hret Hhtml Hmerge.
  assert (Happ : merge_applies form ≠ true).
  { rewrite merge_applies_true. intros (_ & ? & ?).
    destruct Hmerge; [congruence | lia]. }
  revert Hret. run_cases form; try congruence.
  - destruct answer; [done|]. read_log. rewrite !app_nil_r.
    rewrite Rnorm. cbn. by rewrite length_fmap, <- Rin, length_fmap.
  - destruct answer; [done|]. read_log. rewrite !app_nil_r.
    rewrite Rnorm. cbn.
    by rewrite length_fmap, <- (length_fmap fst ndocs), Rnin, <- Rin,
      !length_fmap.
Qed.

(** C6: a form in HTML mode which asks to merge more than one document is
    answered with a bad request; no collaborator was called, so nothing
    was converted, merged or normalized, and nothing is registered. *)
Theorem html_merge_rejected (form : api.FormData) :
  api.Validate form = None →
  api.htmlFormat form = true →
  api.merge form = true →
  1 < length (api.inputPaths form) →
  (∃ err, returned form = Some err ∧ is_bad_request err = true)
  ∧ trace form = []
  ∧ registered form = [].
Proof.
  intros Hvalid Hhtml Hmerge Hlen.
  destruct (rejection_html_merge form Hhtml Hmerge Hlen) as [rerr Hrej].
  run_cases form; try congruence;
    try (destruct Racc as [_ Racc]; congruence).
  split_and!; [|done..].
  exists cause. eauto using rejection_bad_request.
Qed.

(** C7: a form in HTML mode which names a PDF/A variant or sets the PDF/UA
    flag is answered with a bad request before any collaborator is
    called. *)
Theorem html_formats_rejected (form : api.FormData) :
  api.Validate form = None →
  api.htmlFormat form = true →
  api.pdfa form ≠ "" ∨ api.pdfua form = true →
  (∃ err, returned form = Some err ∧ is_bad_request err = true)
  ∧ trace form = []
  ∧ registered form = [].
Proof.
  intros Hvalid Hhtml Hformats.
  destruct (rejection_html_formats form Hhtml Hformats) as [rerr Hrej].
  run_cases form; try congruence;
    try (destruct Racc as [_ Racc]; congruence).
  split_and!; [|done..].
  exists cause. eauto using rejection_bad_request.
Qed.

(** C8: in a successful PDF-mode request where deferred normalization
    applies and merge does not, the engine is called once per document,
    each time to normalize, in the order of the inputs: the [k]-th call
    normalizes the artifact of the [k]-th conversion, which is that of the
    [k]-th input.  The paths registered are the outputs of these calls, in
    that order; as the generated paths are pairwise distinct, none of them
    is an artifact from before the normalization. *)
Theorem unmerged_artifacts_normalized_each (form : api.FormData) :
  returned form = None →
  api.htmlFormat form = false →
  api.nativePdfFormats form = false →
  pdfFormats form ≠ zeroValued →
  api.merge form = false ∨ (length (api.inputPaths form) ≤ 1)%nat →
  (omap conversion_call (trace form)).*1 = api.inputPaths form
  ∧ (omap normalization_call (trace form)).*1
    = (omap conversion_call (trace form)).*2
  ∧ omap engine_call (trace form)
    = (λ doc, Convert_call (pdfFormats form) doc.1 doc.2 None)
      <$> omap normalization_call (trace form)
  ∧ registered form = (omap normalization_call (trace form)).*2
  ∧ length (registered form) = length (api.inputPaths form)
  ∧ (NoDup (omap generated_path (trace form)) →
     ∀ path, path ∈ (omap conversion_call (trace form)).*2 →
             path ∉ registered form).
Proof.
  intros Hret Hhtml Hnative Hformats Hmerge.
  assert (Happ : merge_applies form ≠ true).
  { rewrite merge_applies_true. intros (_ & ? & ?).
    destruct Hmerge; [congruence | lia]. }
  assert (Hnorm : normalization_applies form = true)
    by (by apply normalization_applies_true).
  revert Hret. run_cases form; try congruence.
  destruct answer; [done|]. intros _.
  read_log. rewrite !app_nil_r. split_and!; try done.
  - by rewrite length_fmap, <- (length_fmap fst ndocs), Rnin, <- Rin,
      !length_fmap.
  - intros Hdistinct path Hin.
    apply NoDup_app in Hdistinct as (_ & Hfresh & _). by apply Hfresh.
Qed.

(** C10: in a PDF-mode request with [nativePdfFormats], a non-empty
    format, merge requested and more than one input, every conversion
    call is given the requested formats inline and the engine is never
    asked to normalize; if the form validates and no collaborator call
    fails, the handler returns no error and the only path registered is
    the output of the one merge, which merged the artifacts of the
    conversions of all inputs. *)
Theorem native_merge_returns_raw_merge (form : api.FormData) :
  api.htmlFormat form = false →
  api.nativePdfFormats form = true →
  pdfFormats form ≠ zeroValued →
  1 < length (api.inputPaths form) →
  api.merge form = true →
  Forall (λ formats, formats = pdfFormats form)
    (omap inline_formats (trace form))
  ∧ omap normalization_call (trace form) = []
  ∧ (api.Validate form = None →
     existsb failed (trace form) = false →
     ∃ merged,
       returned form = None
       ∧ (omap conversion_call (trace form)).*1 = api.inputPaths form
       ∧ omap merge_call (trace form)
         = [((omap conversion_call (trace form)).*2, merged)]
       ∧ registered form = [merged]).
Proof.
  intros Hhtml Hnative Hformats Hlen Hmerge.
  assert (Happ : merge_applies form = true) by (by apply merge_applies_true).
  assert (Hnorm : normalization_applies form ≠ true).
  { rewrite normalization_applies_true. intros (_ & ? & _). congruence. }
  pose proof (conversionOptions_inline form Hnative) as Hinline.
  pose proof (rejection_pdf form Hhtml) as Hrej.
  run_cases form; try congruence; read_log;
    rewrite ?app_nil_r, ?orb_true_r;
    (split_and!; [| done | try done; try congruence]);
    rewrite ?Forall_app, ?Forall_fmap, ?Forall_singleton;
    try (split; [|done]); try (by apply Forall_true); try done.
  destruct answer; [done|]. intros _ _. by exists merged.
Qed.

(** C9: a form in HTML mode with a single document and merge requested,
    and neither PDF formats nor page ranges, passes the checks and the
    engine is never asked to merge; if no collaborator call fails, the
    handler returns no error after exactly three calls: a path with
    extension [.html] is generated, the document is converted to HTML at
    that path, and that path alone is registered. *)
Theorem html_single_document_ignores_merge (form : api.FormData)
    (inputPath : string) :
  api.Validate form = None →
  api.htmlFormat form = true →
  api.merge form = true →
  api.inputPaths form = [inputPath] →
  api.pdfa form = "" →
  api.pdfua form = false →
  api.nativePageRanges form = "" →
  rejection form = None
  ∧ omap merge_call (trace form) = []
  ∧ (existsb failed (trace form) = false →
     ∃ path,
       trace form
       = [GeneratePath_call ".html" path;
          Html_call inputPath path (conversionOptions form) None;
          AddOutputPaths_call [path] None]
       ∧ returned form = None
       ∧ registered form = [path]).
Proof.
  intros Hvalid Hhtml Hmerge Hinputs Hpdfa Hpdfua Hranges.
  assert (Hrej : rejection form = None).
  { unfold rejection.
    by rewrite Hhtml, Hmerge, Hinputs, Hpdfa, Hpdfua, Hranges. }
  assert (Happ : merge_applies form ≠ true).
  { rewrite merge_applies_true. intros (? & _). congruence. }
  assert (Hnorm : normalization_applies form ≠ true).
  { rewrite normalization_applies_true. intros (? & _). congruence. }
  split; [done|].
  run_cases form; try congruence; read_log; rewrite ?app_nil_r, ?orb_true_r;
    (split; [done|]); try done.
  rewrite Hinputs in Rin.
  destruct docs as [|[input path] [|? ?]]; try done.
  injection Rin as ->.
  unfold document_events, extension, conversion_event. rewrite Hhtml. cbn.
  destruct answer; [done|]. intros _. by exists path.
Qed.

(** C5: the engine is asked to normalize only in PDF mode, with
    [nativePdfFormats] off and a non-empty format.  For a request which
    reaches the stage (the form validates, there is a document, and
    neither a conversion nor the merge failed) it is asked if and only if
    these three hold.  With [nativePdfFormats] on it is never asked, and
    every conversion call is given the requested formats inline. *)
Theorem normalization_stage_guard (form : api.FormData) :
  (omap normalization_call (trace form) ≠ [] →
   api.htmlFormat form = false
   ∧ api.nativePdfFormats form = false
   ∧ pdfFormats form ≠ zeroValued)
  ∧ (api.Validate form = None →
     api.inputPaths form ≠ [] →
     existsb failed_upstream (trace form) = false →
     (omap normalization_call (trace form) ≠ []
      ↔ api.htmlFormat form = false
        ∧ api.nativePdfFormats form = false
        ∧ pdfFormats form ≠ zeroValued))
  ∧ (api.nativePdfFormats form = true →
     omap normalization_call (trace form) = []
     ∧ Forall (λ formats, formats = pdfFormats form)
         (omap inline_formats (trace form))).
Proof.
  assert (Honly : omap normalization_call (trace form) ≠ [] →
                  normalization_applies form = true).
  { run_cases form; read_log; rewrite ?app_nil_r; done. }
  split_and!.
  - intros ?%Honly. by apply normalization_applies_true.
  - intros Hvalid Hinputs Hupstream. split.
    { intros ?%Honly. by apply normalization_applies_true. }
    intros Hguard. pose proof Hguard as (Hhtml & _).
    apply normalization_applies_true in Hguard.
    pose proof (rejection_pdf form Hhtml) as Hrej.
    clear Honly. revert Hupstream.
    run_cases form; try congruence; read_log;
      rewrite ?app_nil_r, ?orb_true_r; try done.
    + intros _ Hnone. by apply app_nil in Hnone as [_ ?].
    + intros _ Hnone. apply (f_equal (fmap fst)) in Hnone.
      rewrite Rnin in Hnone. apply fmap_nil_inv in Hnone.
      rewrite Hnone in Rin. by rewrite <- Rin in Hinputs.
  - intros Hnative.
    assert (Hnorm : normalization_applies form ≠ true).
    { rewrite normalization_applies_true. intros (_ & ? & _). congruence. }
    pose proof (conversionOptions_inline form Hnative) as Hinline.
    split.
    { destruct (omap normalization_call (trace form)) eqn:Hcalls; [done|].
      destruct Hnorm. by apply Honly. }
    clear Honly.
    run_cases form; read_log; rewrite ?app_nil_r;
      rewrite ?Forall_app, ?Forall_fmap, ?Forall_singleton;
      try (split; [|done]); try (by apply Forall_true); try done.
Qed.

End Specification.

(** ** The specification on sample requests *)

Ltac evaluated :=
  vm_compute; first [reflexivity | lia | discriminate | by left | by right].

Lemma merged_artifact_normalized_once_witness :
  ∃ merged normalized,
    omap engine_call
      (@trace sample.uno sample.engine sample.backend sample.mergedNormalized)
    = [Merge_call ["/tmp/0.pdf"; "/tmp/1.pdf"; "/tmp/2.pdf"] merged None;
       Convert_call {| gotenberg.PdfA := "PDF/A-1b"; gotenberg.PdfUa := false |}
         merged normalized None]
    ∧ @registered sample.uno sample.engine sample.backend
        sample.mergedNormalized = [normalized]
    ∧ merged ∉ ["/tmp/0.pdf"; "/tmp/1.pdf"; "/tmp/2.pdf"].
Proof.
  destruct (@merged_artifact_normalized_once
    sample.uno sample.engine sample.backend sample.mergedNormalized)
    as (merged & normalized & Hengine & Hregistered & Hfresh);
    [evaluated..|].
  exists merged, normalized. split_and!; [done..|].
  apply Hfresh. apply (bool_decide_unpack _). by vm_compute.
Defined.

Lemma conversion_failure_aborts_witness :
  is_Some (@returned sample.pickyUno sample.engine sample.backend
             sample.mergedBroken)
  ∧ api.inputPaths sample.mergedBroken !! 1 = Some "broken.docx"
  ∧ (omap conversion_result
       (@trace sample.pickyUno sample.engine sample.backend
          sample.mergedBroken)).*1
    = take 2 (api.inputPaths sample.mergedBroken)
  ∧ omap merge_call
      (@trace sample.pickyUno sample.engine sample.backend
         sample.mergedBroken) = []
  ∧ omap normalization_call
      (@trace sample.pickyUno sample.engine sample.backend
         sample.mergedBroken) = []
  ∧ omap registration_call
      (@trace sample.pickyUno sample.engine sample.backend
         sample.mergedBroken) = []
  ∧ @registered sample.pickyUno sample.engine sample.backend
      sample.mergedBroken = [].
Proof.
  apply (@conversion_failure_aborts
    sample.pickyUno sample.engine sample.backend sample.mergedBroken
    1 "broken.docx" (errors_New "exit status 1")).
  evaluated.
Defined.

Lemma merged_request_registers_one_path_witness :
  length (@registered sample.uno sample.engine sample.backend sample.merged)
  = 1.
Proof.
  apply (@merged_request_registers_one_path
    sample.uno sample.engine sample.backend sample.merged); evaluated.
Defined.

Lemma unmerged_request_registers_in_order_witness :
  length (@registered sample.uno sample.engine sample.backend sample.plain)
  = 2
  ∧ (omap conversion_call
       (@trace sample.uno sample.engine sample.backend sample.plain)).*1
    = ["a.docx"; "b.docx"]
  ∧ @registered sample.uno sample.engine sample.backend sample.plain
    = (omap conversion_call
         (@trace sample.uno sample.engine sample.backend sample.plain)).*2.
Proof.
  apply (@unmerged_request_registers_in_order
    sample.uno sample.engine sample.backend sample.plain); evaluated.
Defined.

Lemma normalization_stage_guard_witness :
  omap normalization_call
    (@trace sample.uno sample.engine sample.backend sample.normalizedEach)
  ≠ []
  ↔ api.htmlFormat sample.normalizedEach = false
    ∧ api.nativePdfFormats sample.normalizedEach = false
    ∧ pdfFormats sample.normalizedEach ≠ zeroValued.
Proof.
  apply (@normalization_stage_guard
    sample.uno sample.engine sample.backend sample.normalizedEach);
    evaluated.
Defined.

Lemma html_merge_rejected_witness :
  (∃ err,
     @returned sample.uno sample.engine sample.backend sample.htmlMerged
     = Some err ∧ is_bad_request err = true)
  ∧ @trace sample.uno sample.engine sample.backend sample.htmlMerged = []
  ∧ @registered sample.uno sample.engine sample.backend sample.htmlMerged
    = [].
Proof.
  apply (@html_merge_rejected
    sample.uno sample.engine sample.backend sample.htmlMerged); evaluated.
Defined.

Lemma html_formats_rejected_witness :
  (∃ err,
     @returned sample.uno sample.engine sample.backend sample.htmlArchival
     = Some err ∧ is_bad_request err = true)
  ∧ @trace sample.uno sample.engine sample.backend sample.htmlArchival = []
  ∧ @registered sample.uno sample.engine sample.backend sample.htmlArchival
    = [].
Proof.
  apply (@html_formats_rejected
    sample.uno sample.engine sample.backend sample.htmlArchival);
    [evaluated.. | left; evaluated].
Defined.

Lemma unmerged_artifacts_normalized_each_witness :
  omap normalization_call
    (@trace sample.uno sample.engine sample.backend sample.normalizedEach)
  = [("/tmp/0.pdf", "/tmp/2.pdf"); ("/tmp/1.pdf", "/tmp/3.pdf")]
  ∧ @registered sample.uno sample.engine sample.backend sample.normalizedEach
    = ["/tmp/2.pdf"; "/tmp/3.pdf"]
  ∧ ∀ path, path ∈ ["/tmp/0.pdf"; "/tmp/1.pdf"] →
            path ∉ @registered sample.uno sample.engine sample.backend
                     sample.normalizedEach.
Proof.
  destruct (@unmerged_artifacts_normalized_each
    sample.uno sample.engine sample.backend sample.normalizedEach)
    as (_ & _ & _ & _ & _ & Hfresh); [evaluated..|].
  split_and!; [done..|].
  apply Hfresh. apply (bool_decide_unpack _). by vm_compute.
Defined.

Lemma html_single_document_ignores_merge_witness :
  @trace sample.uno sample.engine sample.backend sample.htmlSingle
  = [GeneratePath_call ".html" "/tmp/0.html";
     Html_call "a.docx" "/tmp/0.html" (conversionOptions sample.htmlSingle)
       None;
     AddOutputPaths_call ["/tmp/0.html"] None]
  ∧ @returned sample.uno sample.engine sample.backend sample.htmlSingle
    = None
  ∧ @registered sample.uno sample.engine sample.backend sample.htmlSingle
    = ["/tmp/0.html"].
Proof.
  destruct (@html_single_document_ignores_merge
    sample.uno sample.engine sample.backend sample.htmlSingle "a.docx")
    as (_ & _ & Hdone); [evaluated..|].
  destruct Hdone as (path & Htrace & Hreturned & Hregistered); [evaluated|].
  done.
Defined.

Lemma native_merge_returns_raw_merge_witness :
  Forall (λ formats, formats = pdfFormats sample.nativeMerged)
    (omap inline_formats
       (@trace sample.uno sample.engine sample.backend sample.nativeMerged))
  ∧ omap normalization_call
      (@trace sample.uno sample.engine sample.backend sample.nativeMerged)
    = []
  ∧ @registered sample.uno sample.engine sample.backend sample.nativeMerged
    = ["/tmp/2.pdf"].
Proof.
  destruct (@native_merge_returns_raw_merge
    sample.uno sample.engine sample.backend sample.nativeMerged)
    as (Hinline & Hnever & Hdone); [evaluated..|].
  destruct Hdone as (merged & _ & _ & _ & Hregistered); [evaluated..|].
  done.
Defined.

(** ** More of the pipeline *)

(** Reads a projection off the log of a run, the later ones included. *)
Ltac read_calls :=
  repeat first
    [ progress read_log
    | rewrite outputs_documents | rewrite extensions_documents
    | rewrite options_documents | rewrite methods_documents
    | rewrite stages_documents | rewrite failed_conversion_documents
    | rewrite outputs_normalized | rewrite extensions_normalized
    | rewrite options_normalized | rewrite methods_normalized
    | rewrite stages_normalized | rewrite failed_conversion_normalized
    | rewrite conversion_event_output | rewrite conversion_event_extension
    | rewrite conversion_event_options | rewrite conversion_event_method
    | rewrite conversion_event_stage
    | rewrite conversion_event_failed_conversion
    | rewrite conversion_event_call_error
    | rewrite last_app
    | progress cbn [omap list_omap existsb app fmap list_fmap orb last
                    output_path generated_extension conversion_options
                    converter_method failed_conversion stage fst snd] ].

(** Finds where in the log of a run a call is. *)
Ltac find_call Hin :=
  repeat first
    [ apply elem_of_app in Hin as [Hin|Hin]
    | apply elem_of_cons in Hin as [->|Hin]
    | apply elem_of_nil in Hin; destruct Hin ].

Section Pipeline.

Context {libreOffice : Uno} {engine : PdfEngine} {backend : api.Backend}.

(** The handler stops at the first call which fails. *)
Lemma failed_is_last (form : api.FormData) (ev : event) :
  ev ∈ trace form → failed ev = true →
  last (trace form) = Some ev ∧ is_Some (returned form).
Proof.
  run_cases form; intros Hin Hfailed; find_call Hin;
    try (apply not_failed_documents in Hin; congruence);
    try (apply not_failed_normalized in Hin; congruence);
    try discriminate;
    unfold failed in Hfailed; rewrite ?conversion_event_call_error in Hfailed;
    cbn in Hfailed; try discriminate;
    read_calls; try destruct answer; try done.
Qed.

Lemma conversionOptions_PageRanges (form : api.FormData) :
  libreofficeapi.PageRanges (conversionOptions form)
  = api.nativePageRanges form.
Proof.
  unfold conversionOptions.
  by destruct (api.htmlFormat form), (api.nativePdfFormats form).
Qed.

(** X4: the handler is fail-fast at every stage: a collaborator call which
    fails is the last call of the request, and the handler returns an
    error. *)
Theorem failed_call_ends_request (form : api.FormData) (ev : event) :
  ev ∈ trace form →
  failed ev = true →
  last (trace form) = Some ev ∧ is_Some (returned form).
Proof. apply failed_is_last. Qed.

(** X7: when the merge fails, the handler returns the engine's error
    wrapped as "merge PDFs", with no HTTP status attached; the files it
    tried to merge were the artifacts of all conversions, nothing was
    normalized and no output path is registered. *)
Theorem merge_failure_aborts (form : api.FormData)
    (inputPaths : list string) (outputPath : string) (err : error) :
  Merge_call inputPaths outputPath (Some err) ∈ trace form →
  returned form = Some (fmt_Errorf "merge PDFs" err)
  ∧ inputPaths = (omap conversion_call (trace form)).*2
  ∧ (omap conversion_call (trace form)).*1 = api.inputPaths form
  ∧ omap normalization_call (trace form) = []
  ∧ omap registration_call (trace form) = []
  ∧ registered form = [].
Proof.
  intros Hin. apply failed_is_last in Hin as [Hlast _]; [|done].
  revert Hlast.
  run_cases form; read_calls; rewrite ?app_nil_r; try done;
    unfold conversion_event; try destruct (api.htmlFormat form); try done.
  all: by intros [= <- <- <-].
Qed.

(** X8: when a normalization fails, the handler returns the engine's
    error wrapped as "convert PDF": with the status of a bad request and a
    message naming the requested formats if the error is
    [ErrPdfFormatNotSupported], with no HTTP status otherwise.  The call
    was given the requested formats, and no output path is registered. *)
Theorem normalization_failure_aborts (form : api.FormData)
    (formats : gotenberg.PdfFormats) (inputPath outputPath : string)
    (err : error) :
  Convert_call formats inputPath outputPath (Some err) ∈ trace form →
  formats = pdfFormats form
  ∧ returned form
    = Some (if errors_Is err ErrPdfFormatNotSupported
            then api_WrapError (fmt_Errorf "convert PDF" err) 400
                   ("At least one PDF engine does not handle one of the "
                    +:+ "PDF format in '"
                    +:+ gotenberg.Sprintf_plus_v (pdfFormats form)
                    +:+ "', while other have failed to convert for other "
                    +:+ "reasons")
            else fmt_Errorf "convert PDF" err)
  ∧ omap registration_call (trace form) = []
  ∧ registered form = [].
Proof.
  intros Hin. apply failed_is_last in Hin as [Hlast _]; [|done].
  revert Hlast.
  run_cases form; read_calls; rewrite ?app_nil_r; try done;
    unfold conversion_event; try destruct (api.htmlFormat form); try done;
    intros [= <- <- <- <-]; split_and!; try done;
    unfold normalizationError; by destruct (errors_Is _ _).
Qed.

(** X9: when the conversion of a document to PDF fails, the handler
    returns the converter's error wrapped as "convert to PDF": as a bad
    request naming the requested formats if the error is
    [ErrInvalidPdfFormats]; else as a bad request naming the page ranges
    of the form if it is [ErrMalformedPageRanges]; else with no HTTP
    status. *)
Theorem pdf_conversion_failure_returned (form : api.FormData)
    (inputPath outputPath : string) (options : libreofficeapi.Options)
    (err : error) :
  Pdf_call inputPath outputPath options (Some err) ∈ trace form →
  returned form
  = Some (if errors_Is err ErrInvalidPdfFormats
          then api_WrapError (fmt_Errorf "convert to PDF" err) 400
                 ("A PDF format in '"
                  +:+ gotenberg.Sprintf_plus_v (pdfFormats form)
                  +:+ "' is not supported")
          else if errors_Is err ErrMalformedPageRanges
          then api_WrapError (fmt_Errorf "convert to PDF" err) 400
                 ("Malformed page ranges '" +:+ api.nativePageRanges form
                  +:+ "' (nativePageRanges)")
          else fmt_Errorf "convert to PDF" err).
Proof.
  intros Hin. apply failed_is_last in Hin as [Hlast _]; [|done].
  revert Hlast.
  run_cases form; read_calls; rewrite ?app_nil_r; try done.
  unfold conversion_event, conversionError, pdfConversionError.
  rewrite conversionOptions_PageRanges.
  destruct (api.htmlFormat form); [done|]. intros [=]. by subst.
Qed.

(** X10: when the conversion of a document to HTML fails, the handler
    returns the converter's error wrapped as "convert to HTML" with no
    HTTP status, whatever the error is: neither [ErrInvalidPdfFormats] nor
    [ErrMalformedPageRanges] is turned into a bad request in HTML mode. *)
Theorem html_conversion_failure_returned (form : api.FormData)
    (inputPath outputPath : string) (options : libreofficeapi.Options)
    (err : error) :
  Html_call inputPath outputPath options (Some err) ∈ trace form →
  returned form = Some (fmt_Errorf "convert to HTML" err).
Proof.
  intros Hin. apply failed_is_last in Hin as [Hlast _]; [|done].
  revert Hlast.
  run_cases form; read_calls; rewrite ?app_nil_r; try done.
  unfold conversion_event, conversionError.
  destruct (api.htmlFormat form); [|done]. intros [=]. by subst.
Qed.

Lemma rejection_html_ranges (form : api.FormData) :
  api.htmlFormat form = true →
  api.nativePageRanges form ≠ "" →
  is_Some (rejection form).
Proof.
  unfold rejection. intros -> Hranges.
  destruct (true && api.merge form && _); [done|].
  destruct (true && (_ || _)); [done|].
  by rewrite bool_decide_true by done.
Qed.

(** X1: a form in HTML mode which gives page ranges is answered with a
    bad request before any collaborator is called. *)
Theorem html_page_ranges_rejected (form : api.FormData) :
  api.Validate form = None →
  api.htmlFormat form = true →
  api.nativePageRanges form ≠ "" →
  (∃ err, returned form = Some err ∧ is_bad_request err = true)
  ∧ trace form = []
  ∧ registered form = [].
Proof.
  intros Hvalid Hhtml Hranges.
  destruct (rejection_html_ranges form Hhtml Hranges) as [rerr Hrej].
  run_cases form; try congruence;
    try (destruct Racc as [_ Racc]; congruence).
  split_and!; [|done..].
  exists cause. eauto using rejection_bad_request.
Qed.

(** X2: the three checks of the HTML mode are tried in the order of the
    source and the first which applies decides the error: merging
    several documents, then PDF formats, then page ranges. *)
Theorem html_checks_in_order (form : api.FormData) :
  api.Validate form = None →
  api.htmlFormat form = true →
  (api.merge form = true → 1 < length (api.inputPaths form) →
   returned form
   = Some (api_WrapError
       (errors_New "unable to merge multiple files with htmlFormat") 400
       "Unable to merge multiple files using htmlFormat"))
  ∧ (api.merge form = false ∨ (length (api.inputPaths form) ≤ 1)%nat →
     api.pdfa form ≠ "" ∨ api.pdfua form = true →
     returned form
     = Some (api_WrapError
         (errors_New
            "got both 'htmlFormat' and 'nativePdfFormats' form fields") 400
         "Both 'htmlFormat' and 'nativePdfFormats' form fields are provided"))
  ∧ (api.merge form = false ∨ (length (api.inputPaths form) ≤ 1)%nat →
     api.pdfa form = "" → api.pdfua form = false →
     api.nativePageRanges form ≠ "" →
     returned form
     = Some (api_WrapError
         (errors_New
            "got both 'htmlFormat' and 'nativePageRanges' form fields") 400
         "Both 'htmlFormat' and 'nativePageRanges' form fields are provided")).
Proof.
  intros Hvalid Hhtml.
  assert (Hcase : ∀ err,
    rejection form = Some err → returned form = Some err).
  { intros err Hrej. run_cases form; try congruence;
      destruct Racc as [_ Racc]; congruence. }
  split_and!.
  - intros Hmerge Hlen. apply Hcase. unfold rejection.
    by rewrite Hhtml, Hmerge, bool_decide_true by done.
  - intros Hmerge Hformats. apply Hcase. unfold rejection. rewrite Hhtml.
    assert (api.merge form && bool_decide (1 < length (api.inputPaths form))
            = false) as Hfirst.
    { destruct Hmerge as [->|Hlen]; [done|].
      rewrite bool_decide_false by lia. apply andb_false_r. }
    cbn. rewrite Hfirst.
    destruct Hformats as [Hpdfa| ->].
    + by rewrite bool_decide_true by done.
    + by rewrite orb_true_r.
  - intros Hmerge Hpdfa Hpdfua Hranges. apply Hcase. unfold rejection.
    rewrite Hhtml, Hpdfa, Hpdfua.
    assert (api.merge form && bool_decide (1 < length (api.inputPaths form))
            = false) as Hfirst.
    { destruct Hmerge as [->|Hlen]; [done|].
      rewrite bool_decide_false by lia. apply andb_false_r. }
    cbn. rewrite Hfirst. cbn.
    rewrite (bool_decide_false ("" ≠ "")) by (by intros []).
    cbn. by rewrite bool_decide_true by done.
Qed.

(** X3: in PDF mode no combination of options is refused: for a form
    which validates, the handler starts by generating a [.pdf] path and
    converting the first document to it. *)
Theorem pdf_mode_starts_converting (form : api.FormData)
    (inputPath : string) (rest : list string) :
  api.Validate form = None →
  api.htmlFormat form = false →
  api.inputPaths form = inputPath :: rest →
  ∃ path err,
    take 2 (trace form)
    = [GeneratePath_call ".pdf" path;
       Pdf_call inputPath path (conversionOptions form) err].
Proof.
  intros Hvalid Hhtml Hinputs.
  pose proof (rejection_pdf form Hhtml) as Hrej.
  run_cases form; try congruence; rewrite Hinputs in Rin;
    destruct docs as [|[input1 path1] docs]; cbn in Rin; simplify_eq;
    cbn; unfold extension, conversion_event; rewrite Hhtml; eauto.
Qed.

(** X6: the engine is asked to merge only in PDF mode, when merge is
    requested and there is more than one document; if the form validates
    and no conversion fails it is asked exactly when these hold.  It is
    asked at most once, after every document was converted, for the
    artifacts of these conversions in the order of the inputs. *)
Theorem merge_stage_guard (form : api.FormData) :
  (omap merge_call (trace form) ≠ [] →
   api.htmlFormat form = false
   ∧ 1 < length (api.inputPaths form)
   ∧ api.merge form = true)
  ∧ (api.Validate form = None →
     existsb failed_conversion (trace form) = false →
     (omap merge_call (trace form) ≠ []
      ↔ api.htmlFormat form = false
        ∧ 1 < length (api.inputPaths form)
        ∧ api.merge form = true))
  ∧ (length (omap merge_call (trace form)) ≤ 1)%nat
  ∧ (∀ inputPaths outputPath,
       (inputPaths, outputPath) ∈ omap merge_call (trace form) →
       (omap conversion_call (trace form)).*1 = api.inputPaths form
       ∧ inputPaths = (omap conversion_call (trace form)).*2).
Proof.
  assert (Honly : omap merge_call (trace form) ≠ [] →
                  merge_applies form = true).
  { run_cases form; read_calls; rewrite ?app_nil_r; done. }
  split_and!.
  - intros ?%Honly. by apply merge_applies_true.
  - intros Hvalid Hupstream. split.
    { intros ?%Honly. by apply merge_applies_true. }
    intros Hguard. pose proof Hguard as (Hhtml & _).
    apply merge_applies_true in Hguard.
    pose proof (rejection_pdf form Hhtml) as Hrej.
    clear Honly. revert Hupstream.
    run_cases form; try congruence; read_calls;
      rewrite ?app_nil_r, ?orb_true_r; done.
  - clear Honly. run_cases form; read_calls; rewrite ?app_nil_r; cbn; lia.
  - clear Honly. intros inputPaths outputPath.
    run_cases form; read_calls; rewrite ?app_nil_r;
      intros Hin; try (by apply elem_of_nil in Hin);
      apply list_elem_of_singleton in Hin; by simplify_eq.
Qed.

Lemma conversionOptions_fields (form : api.FormData) :
  conversionOptions form
  = {| libreofficeapi.Landscape := api.landscape form;
       libreofficeapi.PageRanges := api.nativePageRanges form;
       libreofficeapi.PdfFormats :=
         if api.nativePdfFormats form
         then {| gotenberg.PdfA := api.pdfa form;
                 gotenberg.PdfUa := api.pdfua form |}
         else {| gotenberg.PdfA := ""; gotenberg.PdfUa := false |};
       libreofficeapi.HTMLformat := api.htmlFormat form;
       libreofficeapi.ImportFilter := api.importFilter form;
       libreofficeapi.ImportOptions := api.importOptions form |}.
Proof.
  unfold conversionOptions.
  by destruct (api.htmlFormat form), (api.nativePdfFormats form).
Qed.

Lemma constant_sorted {A : Type} (n : nat) (l : list A) :
  StronglySorted le ((λ _, n) <$> l).
Proof.
  induction l as [|x l IH]; cbn; constructor; [done|].
  apply Forall_fmap, Forall_true. intros ?. cbn. lia.
Qed.

Lemma constant_before {A : Type} (n : nat) (l : list A) (k : list nat) :
  StronglySorted le k → Forall (le n) k →
  StronglySorted le (((λ _, n) <$> l) ++ k).
Proof.
  intros Hsorted Hle. apply StronglySorted_app.
  split_and!; [| apply constant_sorted | done].
  intros x1 x2 (? & -> & _)%list_elem_of_fmap Hx2.
  by eapply Forall_forall in Hle.
Qed.

(** X11: the handler registers output paths at most once, and a
    registration is its last call; when it returns no error it has
    registered exactly once, and the paths registered on the context are
    those of that call. *)
Theorem registration_once_and_last (form : api.FormData) :
  (length (omap registration_call (trace form)) ≤ 1)%nat
  ∧ (∀ paths, paths ∈ omap registration_call (trace form) →
       ∃ err, last (trace form) = Some (AddOutputPaths_call paths err))
  ∧ (returned form = None →
     omap registration_call (trace form) = [registered form]).
Proof.
  split_and!.
  - run_cases form; read_calls; rewrite ?app_nil_r; cbn; lia.
  - intros paths.
    run_cases form; read_calls; rewrite ?app_nil_r;
      intros Hin; try (by apply elem_of_nil in Hin);
      apply list_elem_of_singleton in Hin; subst; eauto.
  - run_cases form; read_calls; rewrite ?app_nil_r; try done;
      by destruct answer.
Qed.

(** X12: when the registration of the output paths fails, the handler
    returns the error of the context with no HTTP status, wrapped as "add
    output path" after a merge and as "add output paths" otherwise. *)
Theorem registration_failure_returned (form : api.FormData)
    (paths : list string) (err : error) :
  AddOutputPaths_call paths (Some err) ∈ trace form →
  returned form
  = Some (fmt_Errorf
            (if merge_applies form
             then "add output path" else "add output paths") err).
Proof.
  intros Hin. apply failed_is_last in Hin as [Hlast _]; [|done].
  revert Hlast.
  run_cases form; read_calls; rewrite ?app_nil_r; try done;
    unfold conversion_event; try destruct (api.htmlFormat form); try done.
  all: rewrite Rmerge; intros [=]; by subst.
Qed.

(** X13: every path the converter or the engine is told to write to was
    generated by the context for that call: the output paths of these
    calls are the generated paths, each used once, in the order they were
    generated. *)
Theorem outputs_are_generated (form : api.FormData) :
  omap output_path (trace form) = omap generated_path (trace form).
Proof. run_cases form; read_calls; done. Qed.

(** X14: every path of a request is generated with extension [.html] in
    HTML mode and [.pdf] in PDF mode. *)
Theorem generated_extensions (form : api.FormData) :
  Forall (λ ext, ext = if api.htmlFormat form then ".html" else ".pdf")
    (omap generated_extension (trace form)).
Proof.
  run_cases form; read_calls;
    try (apply merge_applies_true in Rmerge as (Hhtml & _));
    try (apply normalization_applies_true in Rnorm as (Hhtml & _));
    try rewrite Hhtml;
    rewrite ?Forall_app, ?Forall_fmap; unfold extension;
    try rewrite Hhtml;
    repeat split; try (by apply Forall_true);
    repeat constructor.
Qed.

(** X15: the converter is called through [Html] in HTML mode and through
    [Pdf] in PDF mode, never both in one request, and in HTML mode the PDF
    engine is not called at all. *)
Theorem converter_dispatch (form : api.FormData) :
  Forall (λ html, html = api.htmlFormat form)
    (omap converter_method (trace form))
  ∧ (api.htmlFormat form = true → omap engine_call (trace form) = []).
Proof.
  split.
  - run_cases form; read_calls;
      rewrite ?Forall_app, ?Forall_fmap;
      repeat split; try (by apply Forall_true); repeat constructor.
  - intros Hhtml.
    assert (Happ : merge_applies form ≠ true).
    { rewrite merge_applies_true. intros (? & _). congruence. }
    assert (Hnorm : normalization_applies form ≠ true).
    { rewrite normalization_applies_true. intros (? & _). congruence. }
    run_cases form; try congruence; read_calls; done.
Qed.

(** X16: every call to the converter is given the same options, taken
    from the form: its landscape flag, page ranges, import filter and
    import options as they are, the HTML flag, and the requested PDF
    formats if [nativePdfFormats] is set, no format otherwise. *)
Theorem conversion_options_from_form (form : api.FormData) :
  Forall (λ options,
      options
      = {| libreofficeapi.Landscape := api.landscape form;
           libreofficeapi.PageRanges := api.nativePageRanges form;
           libreofficeapi.PdfFormats :=
             if api.nativePdfFormats form
             then {| gotenberg.PdfA := api.pdfa form;
                     gotenberg.PdfUa := api.pdfua form |}
             else {| gotenberg.PdfA := ""; gotenberg.PdfUa := false |};
           libreofficeapi.HTMLformat := api.htmlFormat form;
           libreofficeapi.ImportFilter := api.importFilter form;
           libreofficeapi.ImportOptions := api.importOptions form |})
    (omap conversion_options (trace form)).
Proof.
  pose proof (conversionOptions_fields form) as Hfields.
  run_cases form; read_calls;
    rewrite ?Forall_app, ?Forall_fmap;
    repeat split; try (by apply Forall_true); repeat constructor; done.
Qed.

(** X17: a successful request in HTML mode registers one path per input
    document, in the order of the inputs: the artifact of its conversion
    to HTML. *)
Theorem html_request_registers_in_order (form : api.FormData) :
  returned form = None →
  api.htmlFormat form = true →
  (omap conversion_call (trace form)).*1 = api.inputPaths form
  ∧ registered form = (omap conversion_call (trace form)).*2
  ∧ length (registered form) = length (api.inputPaths form).
Proof.
  intros Hret Hhtml.
  assert (Happ : merge_applies form ≠ true).
  { rewrite merge_applies_true. intros (? & _). congruence. }
  assert (Hnorm : normalization_applies form ≠ true).
  { rewrite normalization_applies_true. intros (? & _). congruence. }
  revert Hret. run_cases form; try congruence.
  destruct answer; [done|]. intros _. read_calls. rewrite !app_nil_r.
  split_and!; try done. by rewrite length_fmap, <- Rin, length_fmap.
Qed.

(** X18: the stages run in the order conversions, merge, normalizations,
    registration: in the log of a request no call of a stage comes before
    a call of an earlier stage. *)
Theorem stages_in_order (form : api.FormData) :
  StronglySorted le (omap stage (trace form)).
Proof.
  run_cases form; read_calls;
    repeat first
      [ apply constant_before
      | apply Forall_app; split
      | apply Forall_fmap, Forall_true; intros ?; cbn; lia
      | constructor
      | lia ].
Qed.

(** X19: the documents are converted in the order of the inputs, each at
    most once: the documents handed to the converter are an initial
    segment of the inputs, and all of them once the handler returns no
    error. *)
Theorem conversions_follow_inputs (form : api.FormData) :
  (omap conversion_call (trace form)).*1
  = take (length (omap conversion_call (trace form))) (api.inputPaths form)
  ∧ (returned form = None →
     (omap conversion_call (trace form)).*1 = api.inputPaths form).
Proof.
  run_cases form; read_calls; rewrite ?app_nil_r;
    rewrite <- ?Rin, ?fmap_app, ?length_app, ?Nat.add_1_r; cbn;
    rewrite <- ?(length_fmap fst docs), ?firstn_all; try done.
  split; [|done]. by rewrite length_fmap.
Qed.

(** X5: the handler returns no error exactly when the form validates and
    passes the checks of the HTML mode and no collaborator call of the
    request fails. *)
Theorem handler_succeeds_iff (form : api.FormData) :
  returned form = None
  ↔ api.Validate form = None
    ∧ rejection form = None
    ∧ existsb failed (trace form) = false.
Proof. apply returned_nil. Qed.

End Pipeline.

(** ** More of the pipeline on sample requests *)

(** The call is the [n]-th of the log. *)
Ltac logged n := apply (list_elem_of_lookup_2 _ n); vm_compute; reflexivity.

Lemma html_page_ranges_rejected_witness :
  (∃ err,
     @returned sample.uno sample.engine sample.backend faulty.htmlRanges
     = Some err ∧ is_bad_request err = true)
  ∧ @trace sample.uno sample.engine sample.backend faulty.htmlRanges = []
  ∧ @registered sample.uno sample.engine sample.backend faulty.htmlRanges
    = [].
Proof.
  apply (@html_page_ranges_rejected
    sample.uno sample.engine sample.backend faulty.htmlRanges); evaluated.
Defined.

Lemma html_checks_in_order_witness :
  @returned sample.uno sample.engine sample.backend faulty.htmlEverything
  = Some (api_WrapError
      (errors_New "unable to merge multiple files with htmlFormat") 400
      "Unable to merge multiple files using htmlFormat")
  ∧ @returned sample.uno sample.engine sample.backend sample.htmlArchival
    = Some (api_WrapError
        (errors_New
           "got both 'htmlFormat' and 'nativePdfFormats' form fields") 400
        "Both 'htmlFormat' and 'nativePdfFormats' form fields are provided")
  ∧ @returned sample.uno sample.engine sample.backend faulty.htmlRanges
    = Some (api_WrapError
        (errors_New
           "got both 'htmlFormat' and 'nativePageRanges' form fields") 400
        "Both 'htmlFormat' and 'nativePageRanges' form fields are provided").
Proof.
  split_and!.
  - apply (@html_checks_in_order
      sample.uno sample.engine sample.backend faulty.htmlEverything);
      evaluated.
  - apply (@html_checks_in_order
      sample.uno sample.engine sample.backend sample.htmlArchival);
      evaluated.
  - apply (@html_checks_in_order
      sample.uno sample.engine sample.backend faulty.htmlRanges);
      evaluated.
Defined.

Lemma pdf_mode_starts_converting_witness :
  ∃ path err,
    take 2 (@trace sample.uno sample.engine sample.backend faulty.pdfOptions)
    = [GeneratePath_call ".pdf" path;
       Pdf_call "a.docx" path (conversionOptions faulty.pdfOptions) err].
Proof.
  apply (@pdf_mode_starts_converting
    sample.uno sample.engine sample.backend faulty.pdfOptions
    "a.docx" ["b.docx"]); evaluated.
Defined.

Lemma failed_call_ends_request_witness :
  last (@trace sample.uno faulty.mergeEngine sample.backend sample.merged)
  = Some (Merge_call ["/tmp/0.pdf"; "/tmp/1.pdf"; "/tmp/2.pdf"] "/tmp/3.pdf"
            (Some (errors_New "no PDF engine")))
  ∧ is_Some (@returned sample.uno faulty.mergeEngine sample.backend
               sample.merged).
Proof.
  apply (@failed_call_ends_request
    sample.uno faulty.mergeEngine sample.backend sample.merged);
    [logged 7 | evaluated].
Defined.

Lemma merge_failure_aborts_witness :
  @returned sample.uno faulty.mergeEngine sample.backend sample.merged
  = Some (fmt_Errorf "merge PDFs" (errors_New "no PDF engine"))
  ∧ @registered sample.uno faulty.mergeEngine sample.backend sample.merged
    = [].
Proof.
  destruct (@merge_failure_aborts
    sample.uno faulty.mergeEngine sample.backend sample.merged
    ["/tmp/0.pdf"; "/tmp/1.pdf"; "/tmp/2.pdf"] "/tmp/3.pdf"
    (errors_New "no PDF engine")) as (Hreturned & _ & _ & _ & _ & Hnone);
    [logged 7 | done].
Defined.

Lemma normalization_failure_aborts_witness :
  @returned sample.uno faulty.convertEngine sample.backend
    sample.normalizedEach
  = Some (api_WrapError (fmt_Errorf "convert PDF" ErrPdfFormatNotSupported)
      400
      ("At least one PDF engine does not handle one of the PDF format in "
       +:+ "'{PdfA:PDF/A-2b PdfUa:false}', while other have failed to "
       +:+ "convert for other reasons"))
  ∧ @registered sample.uno faulty.convertEngine sample.backend
      sample.normalizedEach = [].
Proof.
  destruct (@normalization_failure_aborts
    sample.uno faulty.convertEngine sample.backend sample.normalizedEach
    (pdfFormats sample.normalizedEach) "/tmp/1.pdf" "/tmp/3.pdf"
    ErrPdfFormatNotSupported) as (_ & Hreturned & _ & Hnone);
    [logged 7 | done].
Defined.

Lemma pdf_conversion_failure_returned_witness :
  @returned faulty.rangesUno sample.engine sample.backend faulty.pdfOptions
  = Some (api_WrapError
      (fmt_Errorf "convert to PDF"
         (fmt_Errorf "convert to PDF" ErrMalformedPageRanges))
      400 "Malformed page ranges '1-2' (nativePageRanges)").
Proof.
  apply (@pdf_conversion_failure_returned
    faulty.rangesUno sample.engine sample.backend faulty.pdfOptions
    "a.docx" "/tmp/0.pdf" (conversionOptions faulty.pdfOptions)
    (fmt_Errorf "convert to PDF" ErrMalformedPageRanges)).
  logged 1.
Defined.

Lemma html_conversion_failure_returned_witness :
  @returned faulty.formatsUno sample.engine sample.backend faulty.html
  = Some (fmt_Errorf "convert to HTML" ErrInvalidPdfFormats).
Proof.
  apply (@html_conversion_failure_returned
    faulty.formatsUno sample.engine sample.backend faulty.html
    "a.docx" "/tmp/0.html" (conversionOptions faulty.html)
    ErrInvalidPdfFormats).
  logged 1.
Defined.

Lemma registration_failure_returned_witness :
  @returned sample.uno sample.engine faulty.backend sample.plain
  = Some (fmt_Errorf "add output paths" (errors_New "path out of bounds")).
Proof.
  apply (@registration_failure_returned
    sample.uno sample.engine faulty.backend sample.plain
    ["/tmp/0.pdf"; "/tmp/1.pdf"] (errors_New "path out of bounds")).
  logged 4.
Defined.

Lemma html_request_registers_in_order_witness :
  (omap conversion_call
     (@trace sample.uno sample.engine sample.backend faulty.html)).*1
  = ["a.docx"; "b.docx"]
  ∧ @registered sample.uno sample.engine sample.backend faulty.html
    = ["/tmp/0.html"; "/tmp/1.html"]
  ∧ length (@registered sample.uno sample.engine sample.backend faulty.html)
    = 2.
Proof.
  apply (@html_request_registers_in_order
    sample.uno sample.engine sample.backend faulty.html); evaluated.
Defined.
